(** * The position ledger of zipline: [zipline/finance/ledger.py]

    A shallow embedding of [PositionTracker] and [Ledger].  Python objects
    become records threaded explicitly through every operation, Python
    dictionaries become insertion-ordered association lists, exceptions
    become the [Raise] branch of [result].

    Numbers.  Share counts are Python integers and are modelled as [Z].
    Prices, cash and returns are floats; they are idealised as exact
    rationals ([Q], compared with [==]), so rounding is not modelled.  The
    true division [/] raises [ZeroDivisionError] on a zero divisor when both
    operands are Python numbers and returns [inf] or [nan] when one is a
    [numpy.float64] ([float_kind], [true_div]); [Ledger.account] and
    [end_of_session] are written with the division of Python numbers.
    [np.inf] is the value [Inf] of [num]; an undefined price ([nan])
    delivered by the price source is [None]. *)

From Stdlib Require Import ZArith QArith Qround Qfield List String Bool Lia.
Import ListNotations.

Open Scope Q_scope.

(** ** Exceptions *)

Inductive PyError : Type :=
| KeyError
| AttributeError
| ZeroDivisionError.

Inductive result (A : Type) : Type :=
| Ok (a : A)
| Raise (e : PyError).

Arguments Ok {A} a.
Arguments Raise {A} e.

Definition bind {A B : Type} (r : result A) (k : A -> result B) : result B :=
  match r with
  | Ok a => k a
  | Raise e => Raise e
  end.

Notation "x <- r ;; k" := (bind r (fun x => k))
  (at level 61, r at next level, right associativity).
Notation "' p <- r ;; k" := (bind r (fun p => k))
  (at level 61, p pattern, r at next level, right associativity).

(** True division of two Python numbers ([float] or [int]): a zero divisor
    raises [ZeroDivisionError].  This is the division of a ledger whose
    numbers are all Python numbers; see [float_kind] for the other case. *)
Definition py_div (x y : Q) : result Q :=
  if Qeq_bool y 0 then Raise ZeroDivisionError else Ok (x / y).

(** A float that may be [np.inf], [-np.inf] or [nan]. *)
Inductive num : Type :=
| Fin (q : Q)
| Inf
| NegInf
| NaN.

(** The run-time type of a float.  The numbers of a ledger are Python floats
    as long as everything it was given is one; a price delivered by the data
    portal is a [numpy.float64], and so is every sum or product it has
    entered. *)
Inductive float_kind : Type :=
| python_float
| numpy_float64.

(** True division when an operand is a [numpy.float64]: a zero divisor
    raises nothing (numpy warns) and gives [nan] for [0 / 0], an infinity
    of the sign of the dividend otherwise.  The zero is taken to be [+0.0]. *)
Definition np_div (x y : Q) : num :=
  if Qeq_bool y 0 then
    if Qeq_bool x 0 then NaN
    else if Qle_bool 0 x then Inf else NegInf
  else Fin (x / y).

(** [x / y] for floats of the given kind. *)
Definition true_div (kind : float_kind) (x y : Q) : result num :=
  match kind with
  | python_float => q <- py_div x y ;; Ok (Fin q)
  | numpy_float64 => Ok (np_div x y)
  end.

(** ** Python dictionaries

    [dict] and [OrderedDict] both iterate in insertion order.  Assigning to
    a key that is present replaces the value where it stands; assigning to
    a new key appends. *)

Module PyDict.
Section Dict.
Context {K V : Type}.
Variable eqb : K -> K -> bool.

Fixpoint get (d : list (K * V)) (k : K) : option V :=
  match d with
  | [] => None
  | (k', v) :: r => if eqb k' k then Some v else get r k
  end.

(** [k in d] *)
Definition contains (d : list (K * V)) (k : K) : bool :=
  match get d k with Some _ => true | None => false end.

(** [d[k]] *)
Definition getitem (d : list (K * V)) (k : K) : result V :=
  match get d k with Some v => Ok v | None => Raise KeyError end.

(** [d[k] = v] *)
Fixpoint set (d : list (K * V)) (k : K) (v : V) : list (K * V) :=
  match d with
  | [] => [(k, v)]
  | (k', v') :: r =>
      if eqb k' k then (k', v) :: r else (k', v') :: set r k v
  end.

Fixpoint remove (d : list (K * V)) (k : K) : list (K * V) :=
  match d with
  | [] => []
  | (k', v') :: r => if eqb k' k then r else (k', v') :: remove r k
  end.

(** [del d[k]] *)
Definition delitem (d : list (K * V)) (k : K) : result (list (K * V)) :=
  if contains d k then Ok (remove d k) else Raise KeyError.

Fixpoint entry (d : list (K * V)) (k : K) : option (K * V) :=
  match d with
  | [] => None
  | (k', v) :: r => if eqb k' k then Some (k', v) else entry r k
  end.

(** [move_to_end(d, k, last=True)]; both definitions of the source agree
    on it. *)
Definition move_to_end (d : list (K * V)) (k : K) : result (list (K * V)) :=
  match entry d k with
  | Some e => Ok (remove d k ++ [e])
  | None => Raise KeyError
  end.

Definition keys (d : list (K * V)) : list K := map fst d.
Definition values (d : list (K * V)) : list V := map snd d.

(** How many entries of [d] are stored under [k]. *)
Definition count (d : list (K * V)) (k : K) : nat :=
  List.length (filter (fun e => eqb (fst e) k) d).
End Dict.
End PyDict.

(** ** Assets

    Modelled from the spec: [zipline.assets] is not part of this file.  An
    instrument is either an ordinary one or a leverage-bearing [Future]
    carrying its contract [multiplier]; assets are compared and hashed by
    their identifier. *)

Inductive Asset : Type :=
| Equity (sid : Z)
| Future (sid : Z) (multiplier : Q).

Definition asset_sid (a : Asset) : Z :=
  match a with
  | Equity s => s
  | Future s _ => s
  end.

Definition asset_eqb (a b : Asset) : bool := (asset_sid a =? asset_sid b)%Z.

(** ** Transactions and positions *)

Record Transaction : Type := mkTransaction {
  txn_asset : Asset;
  txn_amount : Z;
  txn_dt : Z;
  txn_price : Q;
  txn_order_id : option string
}.

Record Position : Type := mkPosition {
  pos_asset : Asset;
  pos_amount : Z;
  pos_cost_basis : Q;
  pos_last_sale_price : Q;
  pos_last_sale_date : option Z
}.

(** Modelled from the spec: [Position] lives in [zipline/finance/position.py],
    which is not part of this file.  A fresh position holds no shares. *)
Definition Position_new (a : Asset) : Position :=
  {| pos_asset := a;
     pos_amount := 0;
     pos_cost_basis := 0;
     pos_last_sale_price := 0;
     pos_last_sale_date := None |}.

(** Modelled from the spec: [Position.update] adds the transaction's quantity
    to [amount]; the cost basis becomes the quantity-weighted average when
    the holding grows in its direction, the fill price when it flips, and is
    left alone on a pure reduction. *)
Definition Position_update (p : Position) (txn : Transaction) : Position :=
  let total := (pos_amount p + txn_amount txn)%Z in
  let cost :=
    if (0 <=? pos_amount p * txn_amount txn)%Z then
      if (total =? 0)%Z then pos_cost_basis p
      else (pos_cost_basis p * inject_Z (pos_amount p)
            + txn_price txn * inject_Z (txn_amount txn)) / inject_Z total
    else if (Z.abs (pos_amount p) <? Z.abs (txn_amount txn))%Z then txn_price txn
    else pos_cost_basis p in
  {| pos_asset := pos_asset p;
     pos_amount := total;
     pos_cost_basis := cost;
     pos_last_sale_price := pos_last_sale_price p;
     pos_last_sale_date := pos_last_sale_date p |}.

Definition set_amount (p : Position) (a : Z) : Position :=
  {| pos_asset := pos_asset p;
     pos_amount := a;
     pos_cost_basis := pos_cost_basis p;
     pos_last_sale_price := pos_last_sale_price p;
     pos_last_sale_date := pos_last_sale_date p |}.

Definition set_last_sale_price (p : Position) (price : Q) : Position :=
  {| pos_asset := pos_asset p;
     pos_amount := pos_amount p;
     pos_cost_basis := pos_cost_basis p;
     pos_last_sale_price := price;
     pos_last_sale_date := pos_last_sale_date p |}.

(** Modelled from the spec: [positiondict] is defined in
    [zipline/finance/position.py], which is not part of this file.
    [positions[asset]] gives no position ([None]) for an instrument that is
    not held, and the first use of it fails: the spec's PositionNotFound,
    in Python the [AttributeError] of an attribute access on [None]. *)
Definition held_position (ps : list (Asset * Position)) (asset : Asset)
  : result Position :=
  match PyDict.get asset_eqb ps asset with
  | Some position => Ok position
  | None => Raise AttributeError
  end.

(** The entries of the pay-date obligation lists. *)
Record CashPayment : Type := mkCashPayment {
  cp_asset : Asset;
  cp_amount : Q
}.

Record StockPayment : Type := mkStockPayment {
  sp_asset : Asset;
  sp_payment_asset : Asset;
  sp_share_count : Z
}.

(** Declared dividends, as the schedule source delivers them. *)
Record Dividend : Type := mkDividend {
  div_asset : Asset;
  div_amount : Q;
  div_pay_date : Z
}.

Record StockDividend : Type := mkStockDividend {
  sdiv_asset : Asset;
  sdiv_payment_asset : Asset;
  sdiv_ratio : Q;
  sdiv_pay_date : Z
}.

(** Modelled from the spec: [Position.earn_dividend] owes the held quantity
    times the per-share amount and does not change the position. *)
Definition Position_earn_dividend (p : Position) (dividend : Dividend) : CashPayment :=
  {| cp_asset := pos_asset p;
     cp_amount := inject_Z (pos_amount p) * div_amount dividend |}.

(** Modelled from the spec: [Position.earn_stock_dividend] owes whole shares
    of the payment instrument, the held quantity times the ratio. *)
Definition Position_earn_stock_dividend (p : Position) (stock_dividend : StockDividend)
  : StockPayment :=
  {| sp_asset := pos_asset p;
     sp_payment_asset := sdiv_payment_asset stock_dividend;
     sp_share_count :=
       Qfloor (inject_Z (pos_amount p) * sdiv_ratio stock_dividend) |}.

Record PositionStats : Type := mkPositionStats {
  net_exposure : Q;
  gross_value : Q;
  gross_exposure : Q;
  short_value : Q;
  short_exposure : Q;
  shorts_count : Z;
  long_value : Q;
  long_exposure : Q;
  longs_count : Z;
  net_value : Q
}.

Inductive DataFrequency : Type := daily | minute.

(** The price source: [None] stands for an undefined price ([nan]). *)
Record DataPortal : Type := mkDataPortal {
  get_spot_value : Asset -> Z -> DataFrequency -> option Q;
  get_adjusted_value : Asset -> Z -> Z -> DataFrequency -> option Q;
  previous_minute : Z -> Z
}.

Definition Qlt_bool (x y : Q) : bool := negb (Qle_bool y x).

(** ** PositionTracker *)

Module PositionTracker.

(** [positions] is a [positiondict], the mapping from instrument to
    [Position]; see [held_position] for a lookup that finds nothing. *)
Record t : Type := mk {
  positions : list (Asset * Position);
  unpaid_dividends : list (Z * list CashPayment);
  unpaid_stock_dividends : list (Z * list StockPayment);
  positions_store : list (Asset * Position);
  data_frequency : DataFrequency;
  dirty_stats : bool;
  stats_cache : option PositionStats
}.

Definition init (freq : DataFrequency) : t :=
  {| positions := [];
     unpaid_dividends := [];
     unpaid_stock_dividends := [];
     positions_store := [];
     data_frequency := freq;
     dirty_stats := true;
     stats_cache := None |}.

Definition with_positions (pt : t) (ps : list (Asset * Position)) : t :=
  mk ps (unpaid_dividends pt) (unpaid_stock_dividends pt) (positions_store pt)
     (data_frequency pt) (dirty_stats pt) (stats_cache pt).

Definition with_positions_store (pt : t) (ps : list (Asset * Position)) : t :=
  mk (positions pt) (unpaid_dividends pt) (unpaid_stock_dividends pt) ps
     (data_frequency pt) (dirty_stats pt) (stats_cache pt).

Definition with_unpaid_dividends (pt : t) (u : list (Z * list CashPayment)) : t :=
  mk (positions pt) u (unpaid_stock_dividends pt) (positions_store pt)
     (data_frequency pt) (dirty_stats pt) (stats_cache pt).

Definition with_dirty_stats (pt : t) (b : bool) : t :=
  mk (positions pt) (unpaid_dividends pt) (unpaid_stock_dividends pt)
     (positions_store pt) (data_frequency pt) b (stats_cache pt).

Definition with_stats_cache (pt : t) (s : option PositionStats) : t :=
  mk (positions pt) (unpaid_dividends pt) (unpaid_stock_dividends pt)
     (positions_store pt) (data_frequency pt) (dirty_stats pt) s.

(** The position held in [asset], created empty when there is none
    ([if asset not in self.positions: ... else: ...]). *)
Definition position_or_new (ps : list (Asset * Position)) (asset : Asset)
  : Position :=
  match PyDict.get asset_eqb ps asset with
  | Some position => position
  | None => Position_new asset
  end.

Definition execute_transaction (pt : t) (txn : Transaction) : t :=
  let pt := with_dirty_stats pt true in
  let asset := txn_asset txn in
  let position := Position_update (position_or_new (positions pt) asset) txn in
  let pt := with_positions pt (PyDict.set asset_eqb (positions pt) asset position) in
  if (pos_amount position =? 0)%Z then
    let pt := with_positions pt (PyDict.remove asset_eqb (positions pt) asset) in
    match PyDict.delitem asset_eqb (positions_store pt) asset with
    | Ok store => with_positions_store pt store
    | Raise _ => pt
    end
  else pt.

Definition with_unpaid_stock_dividends (pt : t) (u : list (Z * list StockPayment)) : t :=
  mk (positions pt) (unpaid_dividends pt) u (positions_store pt)
     (data_frequency pt) (dirty_stats pt) (stats_cache pt).

(** [d[k].append(x)], or [d[k] = [x]] when [k] is new. *)
Definition append_under {A : Type} (d : list (Z * list A)) (k : Z) (x : A)
  : list (Z * list A) :=
  match PyDict.get Z.eqb d k with
  | Some xs => PyDict.set Z.eqb d k (xs ++ [x])
  | None => PyDict.set Z.eqb d k [x]
  end.

Fixpoint earn_cash (pt : t) (dividends : list Dividend) : result t :=
  match dividends with
  | [] => Ok pt
  | dividend :: rest =>
      position <- held_position (positions pt) (div_asset dividend) ;;
      let div_owed := Position_earn_dividend position dividend in
      earn_cash
        (with_unpaid_dividends pt
           (append_under (unpaid_dividends pt) (div_pay_date dividend) div_owed))
        rest
  end.

Fixpoint earn_stock (pt : t) (stock_dividends : list StockDividend) : result t :=
  match stock_dividends with
  | [] => Ok pt
  | stock_dividend :: rest =>
      position <- held_position (positions pt) (sdiv_asset stock_dividend) ;;
      let div_owed := Position_earn_stock_dividend position stock_dividend in
      earn_stock
        (with_unpaid_stock_dividends pt
           (append_under (unpaid_stock_dividends pt)
              (sdiv_pay_date stock_dividend) div_owed))
        rest
  end.

Definition earn_dividends (pt : t) (dividends : list Dividend)
  (stock_dividends : list StockDividend) : result t :=
  pt <- earn_cash pt dividends ;;
  earn_stock pt stock_dividends.

(** One turn of the stock-dividend loop of [pay_dividends]. *)
Definition credit_stock (ps : list (Asset * Position)) (stock_payment : StockPayment)
  : list (Asset * Position) :=
  let payment_asset := sp_payment_asset stock_payment in
  let share_count := sp_share_count stock_payment in
  let position := position_or_new ps payment_asset in
  PyDict.set asset_eqb ps payment_asset
    (set_amount position (pos_amount position + share_count)%Z).

Definition pay_dividends (pt : t) (next_trading_day : Z) : Q * t :=
  let '(payments, pt) :=
    match PyDict.get Z.eqb (unpaid_dividends pt) next_trading_day with
    | Some payments =>
        (payments,
         with_unpaid_dividends pt
           (PyDict.remove Z.eqb (unpaid_dividends pt) next_trading_day))
    | None => ([], pt)
    end in
  let net_cash_payment :=
    fold_left (fun total payment => total + cp_amount payment) payments 0 in
  let stock_payments :=
    match PyDict.get Z.eqb (unpaid_stock_dividends pt) next_trading_day with
    | Some stock_payments => stock_payments
    | None => []
    end in
  (net_cash_payment,
   with_positions pt (fold_left credit_stock stock_payments (positions pt))).

Definition sync_last_sale_prices (pt : t) (dt : Z) (data_portal : DataPortal)
  (handle_non_market_minutes : bool) : t :=
  let pt := with_dirty_stats pt true in
  let price_of (asset : Asset) : option Q :=
    if negb handle_non_market_minutes then
      get_spot_value data_portal asset dt (data_frequency pt)
    else
      get_adjusted_value data_portal asset (previous_minute data_portal dt) dt
        (data_frequency pt) in
  with_positions pt
    (map (fun entry : Asset * Position =>
            let (asset, position) := entry in
            match price_of asset with
            | Some last_sale_price =>
                (asset, set_last_sale_price position last_sale_price)
            | None => (asset, position)
            end)
         (positions pt)).

(** The running totals of the loop of [stats]. *)
Record totals : Type := mkTotals {
  t_net_value : Q;
  t_long_value : Q;
  t_short_value : Q;
  t_long_exposure : Q;
  t_short_exposure : Q;
  t_longs_count : Z;
  t_shorts_count : Z
}.

Definition totals0 : totals := mkTotals 0 0 0 0 0 0 0.

(** The exposure and the value of one position, as the loop computes them. *)
Definition position_exposure (position : Position) : Q :=
  let exposure := inject_Z (pos_amount position) * pos_last_sale_price position in
  match pos_asset position with
  | Future _ multiplier => exposure * multiplier
  | Equity _ => exposure
  end.

Definition position_value (position : Position) : Q :=
  match pos_asset position with
  | Future _ _ => 0
  | Equity _ => inject_Z (pos_amount position) * pos_last_sale_price position
  end.

Definition stats_step (acc : totals) (position : Position) : totals :=
  let exposure := position_exposure position in
  let value := position_value position in
  let acc :=
    if Qlt_bool 0 exposure then
      mkTotals (t_net_value acc) (t_long_value acc + value) (t_short_value acc)
        exposure (t_short_exposure acc)
        (t_longs_count acc + 1)%Z (t_shorts_count acc)
    else if Qlt_bool exposure 0 then
      mkTotals (t_net_value acc) (t_long_value acc) (t_short_value acc + value)
        (t_long_exposure acc) (t_short_exposure acc + exposure)
        (t_longs_count acc) (t_shorts_count acc + 1)%Z
    else acc in
  mkTotals (t_net_value acc + value) (t_long_value acc) (t_short_value acc)
    (t_long_exposure acc) (t_short_exposure acc)
    (t_longs_count acc) (t_shorts_count acc).

Definition compute_stats (ps : list (Asset * Position)) : PositionStats :=
  let acc := fold_left stats_step (PyDict.values ps) totals0 in
  {| long_value := t_long_value acc;
     gross_value := t_long_value acc - t_short_value acc;
     short_value := t_short_value acc;
     long_exposure := t_long_exposure acc;
     short_exposure := t_short_exposure acc;
     gross_exposure := t_long_exposure acc - t_short_exposure acc;
     net_exposure := t_long_exposure acc + t_short_exposure acc;
     longs_count := t_longs_count acc;
     shorts_count := t_shorts_count acc;
     net_value := t_net_value acc |}.

(** The [stats] property.  [None] is Python's [None], the value of [_stats]
    before the first computation.  The dirty flag is left as it was. *)
Definition stats (pt : t) : option PositionStats * t :=
  if negb (dirty_stats pt) then (stats_cache pt, pt)
  else
    let s := compute_stats (positions pt) in
    (Some s, with_stats_cache pt (Some s)).

(** [update_position]: an absent argument is Python's [None]. *)
Definition update_position (pt : t) (asset : Asset) (amount : option Z)
  (last_sale_price : option Q) (last_sale_date : option Z)
  (cost_basis : option Q) : t :=
  let pt := with_dirty_stats pt true in
  let position := position_or_new (positions pt) asset in
  let position :=
    {| pos_asset := pos_asset position;
       pos_amount :=
         match amount with Some a => a | None => pos_amount position end;
       pos_cost_basis :=
         match cost_basis with Some c => c | None => pos_cost_basis position end;
       pos_last_sale_price :=
         match last_sale_price with
         | Some price => price
         | None => pos_last_sale_price position
         end;
       pos_last_sale_date :=
         match last_sale_date with
         | Some d => Some d
         | None => pos_last_sale_date position
         end |} in
  with_positions pt (PyDict.set asset_eqb (positions pt) asset position).

(** [handle_commission]; [Position.adjust_commission_cost_basis] is defined
    in [zipline/finance/position.py], which is not part of this file, and is
    taken as the parameter [adjust_commission_cost_basis]. *)
Definition handle_commission
  (adjust_commission_cost_basis : Position -> Asset -> Q -> Position)
  (pt : t) (asset : Asset) (cost : Q) : t :=
  match PyDict.get asset_eqb (positions pt) asset with
  | Some position =>
      let pt := with_dirty_stats pt true in
      with_positions pt
        (PyDict.set asset_eqb (positions pt) asset
           (adjust_commission_cost_basis position asset cost))
  | None => pt
  end.

(** One turn of the loop of [handle_splits]; [Position.handle_split], also
    of [position.py], is the parameter [handle_split]: the position after
    the split and the leftover cash. *)
Definition split_step (handle_split : Position -> Asset -> Q -> Position * Q)
  (acc : Q * t) (split : Asset * Q) : Q * t :=
  let (total_leftover_cash, pt) := acc in
  let (asset, ratio) := split in
  match PyDict.get asset_eqb (positions pt) asset with
  | Some position =>
      let pt := with_dirty_stats pt true in
      let (position, leftover_cash) := handle_split position asset ratio in
      (total_leftover_cash + leftover_cash,
       with_positions pt (PyDict.set asset_eqb (positions pt) asset position))
  | None => acc
  end.

Definition handle_splits (handle_split : Position -> Asset -> Q -> Position * Q)
  (pt : t) (splits : list (Asset * Q)) : Q * t :=
  fold_left (split_step handle_split) splits (0, pt).

(** [maybe_create_close_position_transaction]: [None] when the instrument is
    not held.  The closing transaction is built with no commission and no
    order id. *)
Definition maybe_create_close_position_transaction (pt : t) (asset : Asset)
  (dt : Z) (data_portal : DataPortal) : option Transaction :=
  match PyDict.get asset_eqb (positions pt) asset with
  | None => None
  | Some position =>
      let amount := pos_amount position in
      let price :=
        match get_spot_value data_portal asset dt (data_frequency pt) with
        | Some price => price
        | None => pos_last_sale_price position
        end in
      Some {| txn_asset := asset;
              txn_amount := (-1 * amount)%Z;
              txn_dt := dt;
              txn_price := price;
              txn_order_id := None |}
  end.

(** One turn of the loop of [get_positions] over the user-facing store. *)
Definition store_step (store : list (Asset * Position)) (entry : Asset * Position)
  : list (Asset * Position) :=
  let (asset, pos) := entry in
  if (pos_amount pos =? 0)%Z then
    match PyDict.delitem asset_eqb store asset with
    | Ok store => store
    | Raise _ => store
    end
  else
    PyDict.set asset_eqb store asset
      {| pos_asset := asset;
         pos_amount := pos_amount pos;
         pos_cost_basis := pos_cost_basis pos;
         pos_last_sale_price := pos_last_sale_price pos;
         pos_last_sale_date := pos_last_sale_date pos |}.

Definition get_positions (pt : t) : list (Asset * Position) * t :=
  let store := fold_left store_step (positions pt) (positions_store pt) in
  (store, with_positions_store pt store).

(** [get_positions_list]: the flattened records of the non-empty positions. *)
Definition get_positions_list (pt : t) : list Position :=
  filter (fun pos => negb (pos_amount pos =? 0)%Z) (PyDict.values (positions pt)).

End PositionTracker.

(** ** Ledger *)

(** The flattened record of an order ([order.to_dict()]). *)
Record Order : Type := mkOrder {
  order_id : string;
  order_dt : Z;
  order_asset : Asset;
  order_amount : Z;
  order_filled : Z
}.

(** Modelled from the spec: [zipline.protocol.Portfolio] is not part of this
    file; the snapshot holds cash, starting cash, cash flow, portfolio value,
    positions value and exposure, pnl and returns. *)
Record Portfolio : Type := mkPortfolio {
  cash_flow : Q;
  starting_cash : Q;
  portfolio_value : Q;
  pnl : Q;
  returns : Q;
  cash : Q;
  start_date : Z;
  positions_value : Q;
  positions_exposure : Q
}.

Definition Portfolio_new (start : Z) (capital_base : Q) : Portfolio :=
  {| cash_flow := 0;
     starting_cash := capital_base;
     portfolio_value := capital_base;
     pnl := 0;
     returns := 0;
     cash := capital_base;
     start_date := start;
     positions_value := 0;
     positions_exposure := 0 |}.

Definition with_cash_flow (p : Portfolio) (x : Q) : Portfolio :=
  mkPortfolio x (starting_cash p) (portfolio_value p) (pnl p) (returns p)
    (cash p) (start_date p) (positions_value p) (positions_exposure p).

Definition with_cash (p : Portfolio) (x : Q) : Portfolio :=
  mkPortfolio (cash_flow p) (starting_cash p) (portfolio_value p) (pnl p)
    (returns p) x (start_date p) (positions_value p) (positions_exposure p).

Definition with_portfolio_value (p : Portfolio) (x : Q) : Portfolio :=
  mkPortfolio (cash_flow p) (starting_cash p) x (pnl p) (returns p)
    (cash p) (start_date p) (positions_value p) (positions_exposure p).

(** The dividend schedule source, already resolved against the asset
    directory. *)
Record AdjustmentReader : Type := mkAdjustmentReader {
  get_dividends_with_ex_date : list Asset -> Z -> list Dividend;
  get_stock_dividends_with_ex_date : list Asset -> Z -> list StockDividend
}.

Module Ledger.

(** [dirty_portfolio] is the private flag behind the [_dirty_portfolio]
    property; [portfolio_dirty_attr] is the attribute [_portfolio_dirty],
    which exists only once something has assigned it. *)
Record t : Type := mk {
  dirty_portfolio : bool;
  portfolio_ : Portfolio;
  dirty_account : bool;
  account_ : list (string * num);
  account_overrides : list (string * num);
  position_tracker : PositionTracker.t;
  processed_transactions : list (Z * list Transaction);
  orders_by_modified : list (Z * list (string * Order));
  orders_by_id : list (string * Order);
  payout_last_sale_prices : list (Asset * Q);
  portfolio_dirty_attr : option bool
}.

(** [Ledger.__init__]; the fields that [zp.Account] starts with are all
    rewritten by the first read of [account]. *)
Definition init (first_session : Z) (capital_base : Q) (freq : DataFrequency) : t :=
  {| dirty_portfolio := false;
     portfolio_ := Portfolio_new first_session capital_base;
     dirty_account := true;
     account_ := [];
     account_overrides := [];
     position_tracker := PositionTracker.init freq;
     processed_transactions := [];
     orders_by_modified := [];
     orders_by_id := [];
     payout_last_sale_prices := [];
     portfolio_dirty_attr := None |}.

Definition with_portfolio (l : t) (p : Portfolio) : t :=
  mk (dirty_portfolio l) p (dirty_account l) (account_ l) (account_overrides l)
     (position_tracker l) (processed_transactions l) (orders_by_modified l)
     (orders_by_id l) (payout_last_sale_prices l) (portfolio_dirty_attr l).

Definition with_position_tracker (l : t) (pt : PositionTracker.t) : t :=
  mk (dirty_portfolio l) (portfolio_ l) (dirty_account l) (account_ l)
     (account_overrides l) pt (processed_transactions l) (orders_by_modified l)
     (orders_by_id l) (payout_last_sale_prices l) (portfolio_dirty_attr l).

Definition with_payout_last_sale_prices (l : t) (d : list (Asset * Q)) : t :=
  mk (dirty_portfolio l) (portfolio_ l) (dirty_account l) (account_ l)
     (account_overrides l) (position_tracker l) (processed_transactions l)
     (orders_by_modified l) (orders_by_id l) d (portfolio_dirty_attr l).

Definition with_processed_transactions (l : t) (d : list (Z * list Transaction)) : t :=
  mk (dirty_portfolio l) (portfolio_ l) (dirty_account l) (account_ l)
     (account_overrides l) (position_tracker l) d (orders_by_modified l)
     (orders_by_id l) (payout_last_sale_prices l) (portfolio_dirty_attr l).

Definition with_orders (l : t) (by_modified : list (Z * list (string * Order)))
  (by_id : list (string * Order)) : t :=
  mk (dirty_portfolio l) (portfolio_ l) (dirty_account l) (account_ l)
     (account_overrides l) (position_tracker l) (processed_transactions l)
     by_modified by_id (payout_last_sale_prices l) (portfolio_dirty_attr l).

Definition with_account (l : t) (dirty : bool) (account : list (string * num))
  (overrides : list (string * num)) : t :=
  mk (dirty_portfolio l) (portfolio_ l) dirty account overrides
     (position_tracker l) (processed_transactions l) (orders_by_modified l)
     (orders_by_id l) (payout_last_sale_prices l) (portfolio_dirty_attr l).

Definition with_portfolio_dirty_attr (l : t) (b : option bool) : t :=
  mk (dirty_portfolio l) (portfolio_ l) (dirty_account l) (account_ l)
     (account_overrides l) (position_tracker l) (processed_transactions l)
     (orders_by_modified l) (orders_by_id l) (payout_last_sale_prices l) b.

(** The setter of the [_dirty_portfolio] property. *)
Definition set_dirty_portfolio (l : t) (value : bool) : t :=
  if value then
    mk value (portfolio_ l) value (account_ l) (account_overrides l)
       (position_tracker l) (processed_transactions l) (orders_by_modified l)
       (orders_by_id l) (payout_last_sale_prices l) (portfolio_dirty_attr l)
  else
    mk value (portfolio_ l) (dirty_account l) (account_ l) (account_overrides l)
       (position_tracker l) (processed_transactions l) (orders_by_modified l)
       (orders_by_id l) (payout_last_sale_prices l) (portfolio_dirty_attr l).

Definition sync_last_sale_prices (l : t) (dt : Z) (data_portal : DataPortal)
  (handle_non_market_minutes : bool) : t :=
  let l := with_position_tracker l
    (PositionTracker.sync_last_sale_prices (position_tracker l) dt data_portal
       handle_non_market_minutes) in
  with_portfolio_dirty_attr l (Some true).

Definition _calculate_execution_cash_flow (transaction : Transaction) : Q :=
  match txn_asset transaction with
  | Future _ _ => 0
  | Equity _ =>
      (-1 # 1) * txn_price transaction * inject_Z (txn_amount transaction)
  end.

Definition _calculate_payout (multiplier : Q) (amount : Z) (old_price price : Q) : Q :=
  (price - old_price) * multiplier * inject_Z amount.

(** [self._processed_transactions[dt].append(d)], or a new list under [dt]. *)
Definition journal_append (d : list (Z * list Transaction)) (txn : Transaction)
  : list (Z * list Transaction) :=
  match PyDict.get Z.eqb d (txn_dt txn) with
  | Some by_day => PyDict.set Z.eqb d (txn_dt txn) (by_day ++ [txn])
  | None => PyDict.set Z.eqb d (txn_dt txn) [txn]
  end.

(** An exception ends the call; the state it leaves behind is not kept. *)
Definition process_transaction (l : t) (transaction : Transaction) : result t :=
  let pt := PositionTracker.execute_transaction (position_tracker l) transaction in
  let l := set_dirty_portfolio (with_position_tracker l pt) true in
  let l := with_portfolio l
    (with_cash_flow (portfolio_ l)
       (cash_flow (portfolio_ l) + _calculate_execution_cash_flow transaction)) in
  let asset := txn_asset transaction in
  l <- match asset with
       | Future _ multiplier =>
           match PyDict.get asset_eqb (payout_last_sale_prices l) asset with
           | None =>
               Ok (with_payout_last_sale_prices l
                     (PyDict.set asset_eqb (payout_last_sale_prices l) asset
                        (txn_price transaction)))
           | Some old_price =>
               position <- held_position (PositionTracker.positions pt) asset ;;
               let amount := pos_amount position in
               let price := txn_price transaction in
               let l := set_dirty_portfolio l true in
               let l := with_portfolio l
                 (with_cash (portfolio_ l)
                    (cash (portfolio_ l)
                     + _calculate_payout multiplier amount old_price price)) in
               if (amount + txn_amount transaction =? 0)%Z then
                 Ok (with_payout_last_sale_prices l
                       (PyDict.remove asset_eqb (payout_last_sale_prices l) asset))
               else
                 Ok (with_payout_last_sale_prices l
                       (PyDict.set asset_eqb (payout_last_sale_prices l) asset price))
           end
       | Equity _ => Ok l
       end ;;
  Ok (with_processed_transactions l
        (journal_append (processed_transactions l) transaction)).

Definition process_order (l : t) (order : Order) : result t :=
  let order_dict := order in
  match PyDict.get Z.eqb (orders_by_modified l) (order_dt order) with
  | None =>
      Ok (with_orders l
            (PyDict.set Z.eqb (orders_by_modified l) (order_dt order)
               [(order_id order, order_dict)])
            (PyDict.set String.eqb (orders_by_id l) (order_id order) order_dict))
  | Some dt_orders =>
      let by_id := PyDict.set String.eqb (orders_by_id l) (order_id order) order_dict in
      let dt_orders := PyDict.set String.eqb dt_orders (order_id order) order_dict in
      dt_orders <- PyDict.move_to_end String.eqb dt_orders (order_id order) ;;
      by_id <- PyDict.move_to_end String.eqb by_id (order_id order) ;;
      Ok (with_orders l
            (PyDict.set Z.eqb (orders_by_modified l) (order_dt order) dt_orders)
            by_id)
  end.

Definition process_dividends (l : t) (next_session : Z)
  (adjustment_reader : AdjustmentReader) : result t :=
  let position_tracker_ := position_tracker l in
  let held_sids := PyDict.keys (PositionTracker.positions position_tracker_) in
  position_tracker_ <-
    match held_sids with
    | [] => Ok position_tracker_
    | _ :: _ =>
        PositionTracker.earn_dividends position_tracker_
          (get_dividends_with_ex_date adjustment_reader held_sids next_session)
          (get_stock_dividends_with_ex_date adjustment_reader held_sids next_session)
    end ;;
  let l := set_dirty_portfolio (with_position_tracker l position_tracker_) true in
  let (paid, position_tracker_) :=
    PositionTracker.pay_dividends position_tracker_ next_session in
  let l := with_position_tracker l position_tracker_ in
  Ok (with_portfolio l
        (with_cash_flow (portfolio_ l) (cash_flow (portfolio_ l) + paid))).

Definition capital_change (l : t) (change_amount : Q) : t :=
  let p := portfolio_ l in
  let p := with_portfolio_value p (portfolio_value p + change_amount) in
  with_portfolio l (with_cash p (cash p + change_amount)).

(** [self.orders()] with no timestamp. *)
Definition orders (l : t) : list Order := PyDict.values (orders_by_id l).

(** [asset.multiplier] *)
Definition asset_multiplier (a : Asset) : result Q :=
  match a with
  | Future _ multiplier => Ok multiplier
  | Equity _ => Raise AttributeError
  end.

(** [positions.amount]: the position dictionary is a [dict] and has no
    attribute of that name. *)
Definition positions_amount (positions : list (Asset * Position)) : result Z :=
  Raise AttributeError.

Fixpoint payout_loop (positions : list (Asset * Position))
  (entries : list (Asset * Q)) (total : Q) : result Q :=
  match entries with
  | [] => Ok total
  | (asset, old_price) :: rest =>
      let position := held_position positions asset in
      amount <- positions_amount positions ;;
      multiplier <- asset_multiplier asset ;;
      position <- position ;;
      payout_loop positions rest
        (total + _calculate_payout multiplier amount old_price
                   (pos_last_sale_price position))
  end.

Definition _get_payout_total (l : t) (positions : list (Asset * Position)) : result Q :=
  payout_loop positions (payout_last_sale_prices l) 0.

(** The [portfolio] property: the snapshot and the ledger after the read. *)
Definition portfolio (l : t) : result (Portfolio * t) :=
  let portfolio := portfolio_ l in
  if negb (dirty_portfolio l) then Ok (portfolio, l)
  else
    let (position_stats, pt) := PositionTracker.stats (position_tracker l) in
    let l := with_position_tracker l pt in
    position_stats <- match position_stats with
                      | Some s => Ok s
                      | None => Raise AttributeError
                      end ;;
    let position_value := net_value position_stats in
    payout <- _get_payout_total l (PositionTracker.positions pt) ;;
    let cash_ := starting_cash portfolio + cash_flow portfolio + payout in
    let start_value := portfolio_value portfolio in
    let end_value := cash_ + position_value in
    let pnl_ := end_value - start_value in
    let returns_ := if negb (Qeq_bool start_value 0) then pnl_ / start_value else 0 in
    let portfolio :=
      {| cash_flow := cash_flow portfolio;
         starting_cash := starting_cash portfolio;
         portfolio_value := end_value;
         pnl := pnl portfolio + pnl_;
         returns := (1 + returns portfolio) * (1 + returns_) - 1;
         cash := cash_;
         start_date := start_date portfolio;
         positions_value := position_value;
         positions_exposure := net_exposure position_stats |} in
    let l := set_dirty_portfolio (with_portfolio l portfolio) false in
    Ok (portfolio, l).

Definition _calculate_net_liquidation (ending_cash long_value short_value : Q) : Q :=
  ending_cash + long_value + short_value.

Definition _calculate_leverage (exposure net_liquidation : Q) : num :=
  if negb (Qeq_bool net_liquidation 0) then Fin (exposure / net_liquidation)
  else Inf.

Definition calculate_period_stats (l : t) : result (Q * num * num * t) :=
  let (position_stats, pt) := PositionTracker.stats (position_tracker l) in
  let l := with_position_tracker l pt in
  position_stats <- match position_stats with
                    | Some s => Ok s
                    | None => Raise AttributeError
                    end ;;
  let net_liquidation :=
    _calculate_net_liquidation (cash (portfolio_ l))
      (long_value position_stats) (short_value position_stats) in
  let gross_leverage :=
    _calculate_leverage (gross_exposure position_stats) net_liquidation in
  let net_leverage :=
    _calculate_leverage (net_exposure position_stats) net_liquidation in
  Ok (net_liquidation, gross_leverage, net_leverage, l).

(** [override_account_fields], given the fields the caller supplied. *)
Definition override_account_fields (l : t) (kwargs : list (string * num)) : t :=
  with_account l true (account_ l) kwargs.

(** [account_dict.update(overrides)] *)
Definition dict_update (d overrides : list (string * num)) : list (string * num) :=
  fold_left (fun d kv => PyDict.set String.eqb d (fst kv) (snd kv)) overrides d.

Definition setf (d : list (string * num)) (k : string) (v : num) :=
  PyDict.set String.eqb d k v.

(** The [account] property: the account's fields and the ledger after the
    read. *)
Definition account (l : t) : result (list (string * num) * t) :=
  if dirty_account l then
    '(portfolio, l) <- portfolio l ;;
    let d := account_ l in
    let d := setf d "settled_cash" (Fin (cash portfolio)) in
    let d := setf d "accrued_interest" (Fin 0) in
    let d := setf d "buying_power" Inf in
    let d := setf d "equity_with_loan" (Fin (portfolio_value portfolio)) in
    let d := setf d "total_positions_value"
               (Fin (portfolio_value portfolio - cash portfolio)) in
    let d := setf d "total_positions_exposure"
               (Fin (positions_exposure portfolio)) in
    let d := setf d "regt_equity" (Fin (cash portfolio)) in
    let d := setf d "regt_margin" Inf in
    let d := setf d "initial_margin_requirement" (Fin 0) in
    let d := setf d "maintenance_margin_requirement" (Fin 0) in
    let d := setf d "available_funds" (Fin (cash portfolio)) in
    let d := setf d "excess_liquidity" (Fin (cash portfolio)) in
    cushion <- py_div (cash portfolio) (portfolio_value portfolio) ;;
    let d := setf d "cushion" (Fin cushion) in
    let d := setf d "day_trades_remaining" Inf in
    '(net_liquidation, gross_leverage, net_leverage, l) <- calculate_period_stats l ;;
    let d := setf d "net_liquidation" (Fin net_liquidation) in
    let d := setf d "gross_leverage" gross_leverage in
    let d := setf d "net_leverage" net_leverage in
    let d := dict_update d (account_overrides l) in
    Ok (d, with_account l false d (account_overrides l))
  else Ok (account_ l, l).

(** [transactions(dt)]: [None] asks for the whole history. *)
Definition transactions (l : t) (dt : option Z) : result (list Transaction) :=
  match dt with
  | None => Ok (List.concat (PyDict.values (processed_transactions l)))
  | Some dt => PyDict.getitem Z.eqb (processed_transactions l) dt
  end.

(** [orders(dt)] for a given timestamp. *)
Definition orders_at (l : t) (dt : Z) : result (list (string * Order)) :=
  PyDict.getitem Z.eqb (orders_by_modified l) dt.

(** [process_commission], given the commission's asset and cost. *)
Definition process_commission
  (adjust_commission_cost_basis : Position -> Asset -> Q -> Position)
  (l : t) (asset : Asset) (cost : Q) : t :=
  let l := with_position_tracker l
    (PositionTracker.handle_commission adjust_commission_cost_basis
       (position_tracker l) asset cost) in
  let l := set_dirty_portfolio l true in
  with_portfolio l (with_cash_flow (portfolio_ l) (cash_flow (portfolio_ l) - cost)).

Definition process_splits (handle_split : Position -> Asset -> Q -> Position * Q)
  (l : t) (splits : list (Asset * Q)) : t :=
  let (leftover_cash, pt) :=
    PositionTracker.handle_splits handle_split (position_tracker l) splits in
  let l := with_position_tracker l pt in
  if Qlt_bool 0 leftover_cash then
    let l := set_dirty_portfolio l true in
    with_portfolio l
      (with_cash_flow (portfolio_ l) (cash_flow (portfolio_ l) + leftover_cash))
  else l.

Definition close_position (l : t) (asset : Asset) (dt : Z)
  (data_portal : DataPortal) : result t :=
  match
    PositionTracker.maybe_create_close_position_transaction
      (position_tracker l) asset dt data_portal
  with
  | Some txn => process_transaction l txn
  | None => Ok l
  end.

End Ledger.

(** ** Notions used in the statements *)

(** The net signed quantity of a sequence of transactions. *)
Fixpoint net_quantity (txns : list Transaction) : Z :=
  match txns with
  | [] => 0%Z
  | txn :: rest => (txn_amount txn + net_quantity rest)%Z
  end.

Definition execute_all (pt : PositionTracker.t) (txns : list Transaction)
  : PositionTracker.t :=
  fold_left PositionTracker.execute_transaction txns pt.

(** Whether the book holds a position in [a], and how many shares. *)
Definition held (pt : PositionTracker.t) (a : Asset) : bool :=
  PyDict.contains asset_eqb (PositionTracker.positions pt) a.

Definition held_amount (pt : PositionTracker.t) (a : Asset) : Z :=
  match PyDict.get asset_eqb (PositionTracker.positions pt) a with
  | Some p => pos_amount p
  | None => 0%Z
  end.

(** The book never keeps an empty position in [a], nor two entries for it. *)
Definition book_ok (pt : PositionTracker.t) (a : Asset) : Prop :=
  PyDict.get asset_eqb
    (PyDict.remove asset_eqb (PositionTracker.positions pt) a) a = None
  /\ forall p, PyDict.get asset_eqb (PositionTracker.positions pt) a = Some p ->
               pos_amount p <> 0%Z.

(** The mutating entry points of the ledger that use nothing from outside
    this file.  The others ([process_commission], [process_splits] and
    [close_position], and [capital_change]) are events of [event], where
    the two [Position] methods they need are parameters. *)
Inductive mutation : Type :=
| Process_transaction (transaction : Transaction)
| Process_order (order : Order)
| Process_dividends (next_session : Z) (adjustment_reader : AdjustmentReader)
| Sync_last_sale_prices (dt : Z) (data_portal : DataPortal)
    (handle_non_market_minutes : bool)
| Override_account_fields (kwargs : list (string * num)).

Definition mutate (l : Ledger.t) (m : mutation) : result Ledger.t :=
  match m with
  | Process_transaction transaction => Ledger.process_transaction l transaction
  | Process_order order => Ledger.process_order l order
  | Process_dividends next_session adjustment_reader =>
      Ledger.process_dividends l next_session adjustment_reader
  | Sync_last_sale_prices dt data_portal handle_non_market_minutes =>
      Ok (Ledger.sync_last_sale_prices l dt data_portal handle_non_market_minutes)
  | Override_account_fields kwargs => Ok (Ledger.override_account_fields l kwargs)
  end.

Fixpoint mutate_all (l : Ledger.t) (batch : list mutation) : result Ledger.t :=
  match batch with
  | [] => Ok l
  | m :: rest => l <- mutate l m ;; mutate_all l rest
  end.

(** A price source that quotes every instrument at one price. *)
Definition flat_prices (price : Q) : DataPortal :=
  {| get_spot_value := fun _ _ _ => Some price;
     get_adjusted_value := fun _ _ _ _ => Some price;
     previous_minute := fun dt => (dt - 1)%Z |}.

(** A price source that quotes each instrument from a table. *)
Definition table_prices (table : list (Asset * Q)) : DataPortal :=
  {| get_spot_value := fun asset _ _ => PyDict.get asset_eqb table asset;
     get_adjusted_value := fun asset _ _ _ => PyDict.get asset_eqb table asset;
     previous_minute := fun dt => (dt - 1)%Z |}.

(** The sum of the exposures of the long positions of a book. *)
Definition sum_long_exposure (ps : list (Asset * Position)) : Q :=
  fold_left
    (fun total position =>
       if Qlt_bool 0 (PositionTracker.position_exposure position)
       then total + PositionTracker.position_exposure position
       else total)
    (PyDict.values ps) 0.

(** The last key of a journal. *)
Definition last_key {V : Type} (d : list (string * V)) : option string :=
  List.last (map (fun e => Some (fst e)) d) None.

(** ** Example runs *)

(** The ledger a successful run ends in. *)
Definition ledger_of (r : result Ledger.t) (otherwise : Ledger.t) : Ledger.t :=
  match r with
  | Ok l => l
  | Raise _ => otherwise
  end.

(** Starting cash 100; sell 10 shares short at 10 and mark them at 10.  The
    portfolio has not been read since, so its cash is still 100. *)
Definition short_ledger : Ledger.t :=
  ledger_of
    (mutate_all (Ledger.init 0 (100 # 1) daily)
       [Process_transaction (mkTransaction (Equity 1) (-10) 1 (10 # 1) None);
        Sync_last_sale_prices 1 (flat_prices (10 # 1)) false])
    (Ledger.init 0 (100 # 1) daily).

(** The two fields of the snapshot that only a read of the portfolio and
    [capital_change] write. *)
Definition value_and_returns (l : Ledger.t) : Q * Q :=
  (portfolio_value (Ledger.portfolio_ l), returns (Ledger.portfolio_ l)).

(** The snapshot and ledger a successful read of the portfolio returns. *)
Definition read_of (r : result (Portfolio * Ledger.t)) (otherwise : Ledger.t)
  : Portfolio * Ledger.t :=
  match r with
  | Ok pl => pl
  | Raise _ => (Ledger.portfolio_ otherwise, otherwise)
  end.

(** Starting cash 100.  First batch: buy 10 shares at 10, marked at 12.
    Second batch: sell 5 of them at 9, the rest marked at 9. *)
Definition two_step_start : Ledger.t := Ledger.init 0 (100 # 1) daily.

Definition two_step_batch1 : list mutation :=
  [Process_transaction (mkTransaction (Equity 1) 10 1 (10 # 1) None);
   Sync_last_sale_prices 1 (flat_prices (12 # 1)) false].

Definition two_step_batch2 : list mutation :=
  [Process_transaction (mkTransaction (Equity 1) (-5) 2 (9 # 1) None);
   Sync_last_sale_prices 2 (flat_prices (9 # 1)) false].

Definition two_step_mutated1 : Ledger.t :=
  ledger_of (mutate_all two_step_start two_step_batch1) two_step_start.

Definition two_step_read1 : Portfolio * Ledger.t :=
  read_of (Ledger.portfolio two_step_mutated1) two_step_start.

Definition two_step_mutated2 : Ledger.t :=
  ledger_of (mutate_all (snd two_step_read1) two_step_batch2) two_step_start.

Definition two_step_read2 : Portfolio * Ledger.t :=
  read_of (Ledger.portfolio two_step_mutated2) two_step_start.

(** A leveraged instrument with multiplier 5: two contracts are opened at
    50, then one more is bought at 55. *)
Definition contract : Asset := Future 7 (5 # 1).

Definition open_two_at_50 : Transaction :=
  mkTransaction contract 2 1 (50 # 1) None.

Definition add_one_at_55 : Transaction :=
  mkTransaction contract 1 2 (55 # 1) None.

Definition futures_start : Ledger.t := Ledger.init 0 (100000 # 1) daily.

Definition futures_opened : Ledger.t :=
  ledger_of (Ledger.process_transaction futures_start open_two_at_50) futures_start.

Definition futures_added : Ledger.t :=
  ledger_of (Ledger.process_transaction futures_opened add_one_at_55) futures_start.

(** Ten shares of instrument 1 are held when it declares, for pay-date 5, a
    cash dividend of 1/2 a share and a stock dividend of 3 shares of
    instrument 2 for every 10 held. *)
Definition dividend_book : PositionTracker.t :=
  match
    PositionTracker.earn_dividends
      (PositionTracker.execute_transaction (PositionTracker.init daily)
         (mkTransaction (Equity 1) 10 1 (10 # 1) None))
      [mkDividend (Equity 1) (1 # 2) 5]
      [mkStockDividend (Equity 1) (Equity 2) (3 # 10) 5]
  with
  | Ok pt => pt
  | Raise _ => PositionTracker.init daily
  end.

Definition paid_once : Q * PositionTracker.t :=
  PositionTracker.pay_dividends dividend_book 5.

Definition paid_twice : Q * PositionTracker.t :=
  PositionTracker.pay_dividends (snd paid_once) 5.

(** Starting cash 100000: ten shares bought at 10 and marked at 10, the
    portfolio read, then the shares marked at 12. *)
Definition sync_before_read : Ledger.t :=
  ledger_of
    (mutate_all (Ledger.init 0 (100000 # 1) daily)
       [Process_transaction (mkTransaction (Equity 1) 10 1 (10 # 1) None);
        Sync_last_sale_prices 1 (flat_prices (10 # 1)) false])
    (Ledger.init 0 (100000 # 1) daily).

Definition sync_first_read : Portfolio * Ledger.t :=
  read_of (Ledger.portfolio sync_before_read) sync_before_read.

Definition sync_resynced : Ledger.t :=
  Ledger.sync_last_sale_prices (snd sync_first_read) 2 (flat_prices (12 # 1)) false.

(** Two long positions: 10 shares of instrument 1 marked at 10 and 5 shares
    of instrument 2 marked at 4. *)
Definition two_longs : PositionTracker.t :=
  PositionTracker.sync_last_sale_prices
    (execute_all (PositionTracker.init daily)
       [mkTransaction (Equity 1) 10 1 (10 # 1) None;
        mkTransaction (Equity 2) 5 1 (4 # 1) None])
    1 (table_prices [(Equity 1, 10 # 1); (Equity 2, 4 # 1)]) false.

(** Orders "a" and "b" are placed at time 1; order "a" is then modified at
    time 2. *)
Definition order_a : Order := mkOrder "a" 1 (Equity 1) 10 0.
Definition order_b : Order := mkOrder "b" 1 (Equity 1) 20 0.
Definition order_a_filled : Order := mkOrder "a" 2 (Equity 1) 10 10.

Definition orders_placed : Ledger.t :=
  ledger_of
    (mutate_all (Ledger.init 0 (100000 # 1) daily)
       [Process_order order_a; Process_order order_b])
    (Ledger.init 0 (100000 # 1) daily).

Definition orders_modified : Ledger.t :=
  ledger_of (Ledger.process_order orders_placed order_a_filled) orders_placed.

(** Split a conjunction into its parts, and nothing else. *)
Ltac conjuncts := repeat match goal with |- _ /\ _ => split end.

(** ** Sessions, events and the Python 2 [move_to_end] *)

(** [move_to_end] as the source defines it for Python 2.  [pop] raises
    [KeyError] on a missing key; with [last] false the popped entry is put
    back first and the others follow in their order. *)
Definition move_to_end_py2 {V : Type} (ordered_dict : list (string * V))
  (key : string) (last : bool) : result (list (string * V)) :=
  match PyDict.get String.eqb ordered_dict key with
  | None => Raise KeyError
  | Some popped =>
      let items := PyDict.remove String.eqb ordered_dict key in
      if last then Ok (PyDict.set String.eqb items key popped)
      else
        Ok (fold_left (fun d kv => PyDict.set String.eqb d (fst kv) (snd kv))
              items [(key, popped)])
  end.

(** The ledger together with its returns series: [daily_returns] holds
    [None] ([nan]) for a session that has not ended. *)
Record LedgerReturns : Type := mkLedgerReturns {
  lr_ledger : Ledger.t;
  daily_returns : list (Z * option Q);
  previous_total_returns : Q
}.

Definition with_returns (trading_sessions : list Z) (l : Ledger.t) : LedgerReturns :=
  {| lr_ledger := l;
     daily_returns := map (fun session => (session, None)) trading_sessions;
     previous_total_returns := 0 |}.

(** [end_of_session], with the division of Python numbers. *)
Definition end_of_session (s : LedgerReturns) (session_label : Z)
  : result LedgerReturns :=
  let l := Ledger.with_processed_transactions (lr_ledger s) [] in
  let l := Ledger.with_orders l [] [] in
  '(portfolio, l) <- Ledger.portfolio l ;;
  let current_total_returns := returns portfolio in
  ratio <- py_div (current_total_returns + 1) (previous_total_returns s + 1) ;;
  Ok {| lr_ledger := l;
        daily_returns :=
          PyDict.set Z.eqb (daily_returns s) session_label (Some (ratio - 1));
        previous_total_returns := current_total_returns |}.

(** Everything a simulation does to a ledger, reads included. *)
Inductive event : Type :=
| Mutation (m : mutation)
| Process_commission (asset : Asset) (cost : Q)
| Process_splits (splits : list (Asset * Q))
| Close_position (asset : Asset) (dt : Z) (data_portal : DataPortal)
| Capital_change (change_amount : Q)
| Read_portfolio
| Read_account.

Definition run_event
  (adjust_commission_cost_basis : Position -> Asset -> Q -> Position)
  (handle_split : Position -> Asset -> Q -> Position * Q)
  (l : Ledger.t) (e : event) : result Ledger.t :=
  match e with
  | Mutation m => mutate l m
  | Process_commission asset cost =>
      Ok (Ledger.process_commission adjust_commission_cost_basis l asset cost)
  | Process_splits splits => Ok (Ledger.process_splits handle_split l splits)
  | Close_position asset dt data_portal =>
      Ledger.close_position l asset dt data_portal
  | Capital_change change_amount => Ok (Ledger.capital_change l change_amount)
  | Read_portfolio => '(_, l) <- Ledger.portfolio l ;; Ok l
  | Read_account => '(_, l) <- Ledger.account l ;; Ok l
  end.

Fixpoint run_events
  (adjust_commission_cost_basis : Position -> Asset -> Q -> Position)
  (handle_split : Position -> Asset -> Q -> Position * Q)
  (l : Ledger.t) (events : list event) : result Ledger.t :=
  match events with
  | [] => Ok l
  | e :: rest =>
      l <- run_event adjust_commission_cost_basis handle_split l e ;;
      run_events adjust_commission_cost_basis handle_split l rest
  end.

(** The capital injected by the events of a run. *)
Fixpoint capital_changes (events : list event) : Q :=
  match events with
  | [] => 0
  | Capital_change change_amount :: rest => change_amount + capital_changes rest
  | _ :: rest => capital_changes rest
  end.

(** [k] keys one entry of [d] at most. *)
Definition keyed_once {K V : Type} (eqb : K -> K -> bool) (d : list (K * V)) (k : K)
  : Prop :=
  PyDict.get eqb (PyDict.remove eqb d k) k = None.

(** The sums the statistics are compared with. *)
Definition sum_short_exposure (ps : list (Asset * Position)) : Q :=
  fold_left
    (fun total position =>
       if Qlt_bool (PositionTracker.position_exposure position) 0
       then total + PositionTracker.position_exposure position
       else total)
    (PyDict.values ps) 0.

Definition is_future (a : Asset) : bool :=
  match a with
  | Future _ _ => true
  | Equity _ => false
  end.

(** The shares of [a] that a list of stock payments delivers. *)
Fixpoint shares_paid (a : Asset) (stock_payments : list StockPayment) : Z :=
  match stock_payments with
  | [] => 0%Z
  | sp :: rest =>
      ((if asset_eqb (sp_payment_asset sp) a then sp_share_count sp else 0)
       + shares_paid a rest)%Z
  end.

(** The cash that a list of dividends, all owed by [pt], amounts to. *)
Fixpoint cash_owed (pt : PositionTracker.t) (dividends : list Dividend) : Q :=
  match dividends with
  | [] => 0
  | dividend :: rest =>
      cash_owed pt rest
      + inject_Z (held_amount pt (div_asset dividend)) * div_amount dividend
  end.

(** The cash obligations listed for pay-date [d], summed as [pay_dividends]
    sums them. *)
Definition owed_on (pt : PositionTracker.t) (d : Z) : Q :=
  fold_left (fun total payment => total + cp_amount payment)
    (match PyDict.get Z.eqb (PositionTracker.unpaid_dividends pt) d with
     | Some payments => payments
     | None => []
     end) 0.

(** Stand-ins for the two [Position] methods that the tracker takes as
    parameters: a commission that leaves the position alone, and a split
    that rescales nothing and leaves one unit of cash. *)
Definition no_adjustment (p : Position) (asset : Asset) (cost : Q) : Position := p.

Definition unit_leftover (p : Position) (asset : Asset) (ratio : Q) : Position * Q :=
  (p, 1).

(** A price source with no price for anything: every quote is [nan]. *)
Definition no_prices : DataPortal :=
  {| get_spot_value := fun _ _ _ => None;
     get_adjusted_value := fun _ _ _ _ => None;
     previous_minute := fun dt => (dt - 1)%Z |}.

(** A short position in a leveraged instrument beside the two long ones. *)
Definition mixed_book : PositionTracker.t :=
  PositionTracker.sync_last_sale_prices
    (execute_all (PositionTracker.init daily)
       [mkTransaction (Equity 1) 10 1 (10 # 1) None;
        mkTransaction contract (-3) 1 (50 # 1) None;
        mkTransaction (Equity 2) (-5) 1 (4 # 1) None])
    1 (table_prices [(Equity 1, 10 # 1); (contract, 50 # 1); (Equity 2, 4 # 1)])
    false.

(** The returns series over sessions 1 and 2, around the two-step run. *)
Definition session_start : LedgerReturns := with_returns [1%Z; 2%Z] two_step_mutated1.

Definition session_one : LedgerReturns :=
  match end_of_session session_start 1 with
  | Ok s => s
  | Raise _ => session_start
  end.

Definition session_one_traded : LedgerReturns :=
  {| lr_ledger :=
       ledger_of (mutate_all (lr_ledger session_one) two_step_batch2)
         (lr_ledger session_one);
     daily_returns := daily_returns session_one;
     previous_total_returns := previous_total_returns session_one |}.

Definition session_two : LedgerReturns :=
  match end_of_session session_one_traded 2 with
  | Ok s => s
  | Raise _ => session_one_traded
  end.

(** What the portfolio value would be had nothing been gained or lost. *)
Definition basis (l : Ledger.t) : Q :=
  portfolio_value (Ledger.portfolio_ l) - pnl (Ledger.portfolio_ l).

(** A dirty portfolio always comes with a dirty account, and the statistics
    of the tracker are always due for recomputation. *)
Definition well_flagged (l : Ledger.t) : Prop :=
  (Ledger.dirty_portfolio l = true -> Ledger.dirty_account l = true)
  /\ PositionTracker.dirty_stats (Ledger.position_tracker l) = true.

Definition capital_of (e : event) : Q :=
  match e with
  | Capital_change change_amount => change_amount
  | _ => 0
  end.

(** Close an equation between bases once the ledger's fields are computed. *)
Ltac basis_ring :=
  unfold basis, capital_of; cbn -[Qplus Qminus Qmult Qopp Qeq]; ring.

(** A day in the life of a ledger with starting cash 1000: a purchase, a
    price update, a read, fresh capital, a commission, a closing trade and a
    read of the account. *)
Definition busy_day : list event :=
  [Mutation (Process_transaction (mkTransaction (Equity 1) 10 1 (10 # 1) None));
   Mutation (Sync_last_sale_prices 1 (flat_prices (12 # 1)) false);
   Read_portfolio;
   Capital_change (50 # 1);
   Process_commission (Equity 1) (3 # 1);
   Close_position (Equity 1) 2 (flat_prices (11 # 1));
   Read_account].

Definition after_busy_day : Ledger.t :=
  ledger_of
    (run_events no_adjustment unit_leftover (Ledger.init 0 (1000 # 1) daily) busy_day)
    (Ledger.init 0 (1000 # 1) daily).

(** What the user sees of a position. *)
Definition position_view (p : Position) : Z * Q * Q * option Z :=
  (pos_amount p, pos_cost_basis p, pos_last_sale_price p, pos_last_sale_date p).

(** The short ledger with two account fields overridden by the broker. *)
Definition broker_fields : list (string * num) :=
  [("buying_power"%string, Fin (250 # 1)); ("leverage"%string, Fin (2 # 1))].

Definition overridden_read : result (list (string * num) * Ledger.t) :=
  Ledger.account (Ledger.override_account_fields two_step_mutated1 broker_fields).

(** A book whose position in instrument 1 has been emptied by an update,
    after the store had been filled. *)
Definition emptied_book : PositionTracker.t :=
  PositionTracker.update_position (snd (PositionTracker.get_positions two_longs))
    (Equity 1) (Some 0%Z) None None None.


(** Starting cash 100.  First batch: buy 10 shares at 10, pay a commission
    of 1, mark the shares at 12.  Second batch: a split that leaves one unit
    of cash, then the position is closed at 9. *)
Definition trading_start : Ledger.t := Ledger.init 0 (100 # 1) daily.

Definition trading_batch1 : list event :=
  [Mutation (Process_transaction (mkTransaction (Equity 1) 10 1 (10 # 1) None));
   Process_commission (Equity 1) (1 # 1);
   Mutation (Sync_last_sale_prices 1 (flat_prices (12 # 1)) false)].

Definition trading_batch2 : list event :=
  [Process_splits [(Equity 1, 2 # 1)];
   Close_position (Equity 1) 2 (flat_prices (9 # 1))].

Definition trading_mutated1 : Ledger.t :=
  ledger_of (run_events no_adjustment unit_leftover trading_start trading_batch1)
    trading_start.

Definition trading_read1 : Portfolio * Ledger.t :=
  read_of (Ledger.portfolio trading_mutated1) trading_start.

Definition trading_mutated2 : Ledger.t :=
  ledger_of
    (run_events no_adjustment unit_leftover (snd trading_read1) trading_batch2)
    trading_start.

Definition trading_read2 : Portfolio * Ledger.t :=
  read_of (Ledger.portfolio trading_mutated2) trading_start.

(** The [account] property for a ledger whose cash and portfolio value are
    floats of the given kind: [Ledger.account] with the cushion computed by
    the division of that kind.  The leverage divisions are guarded and need
    no such care. *)
Definition account_as (kind : float_kind) (l : Ledger.t)
  : result (list (string * num) * Ledger.t) :=
  if Ledger.dirty_account l then
    '(portfolio, l) <- Ledger.portfolio l ;;
    let d := Ledger.account_ l in
    let d := Ledger.setf d "settled_cash" (Fin (cash portfolio)) in
    let d := Ledger.setf d "accrued_interest" (Fin 0) in
    let d := Ledger.setf d "buying_power" Inf in
    let d := Ledger.setf d "equity_with_loan" (Fin (portfolio_value portfolio)) in
    let d := Ledger.setf d "total_positions_value"
               (Fin (portfolio_value portfolio - cash portfolio)) in
    let d := Ledger.setf d "total_positions_exposure"
               (Fin (positions_exposure portfolio)) in
    let d := Ledger.setf d "regt_equity" (Fin (cash portfolio)) in
    let d := Ledger.setf d "regt_margin" Inf in
    let d := Ledger.setf d "initial_margin_requirement" (Fin 0) in
    let d := Ledger.setf d "maintenance_margin_requirement" (Fin 0) in
    let d := Ledger.setf d "available_funds" (Fin (cash portfolio)) in
    let d := Ledger.setf d "excess_liquidity" (Fin (cash portfolio)) in
    cushion <- true_div kind (cash portfolio) (portfolio_value portfolio) ;;
    let d := Ledger.setf d "cushion" cushion in
    let d := Ledger.setf d "day_trades_remaining" Inf in
    '(net_liquidation, gross_leverage, net_leverage, l) <-
      Ledger.calculate_period_stats l ;;
    let d := Ledger.setf d "net_liquidation" (Fin net_liquidation) in
    let d := Ledger.setf d "gross_leverage" gross_leverage in
    let d := Ledger.setf d "net_leverage" net_leverage in
    let d := Ledger.dict_update d (Ledger.account_overrides l) in
    Ok (d, Ledger.with_account l false d (Ledger.account_overrides l))
  else Ok (Ledger.account_ l, l).






(** ** Dictionary lemmas *)

Section DictFacts.
Context {K V : Type}.
Variable eqb : K -> K -> bool.
Variables k k' : K.
Hypothesis same_key : forall x, eqb x k = eqb x k'.

Lemma get_same_key (d : list (K * V)) :
  PyDict.get eqb d k = PyDict.get eqb d k'.
Proof.
  induction d as [|[x v] r IH]; simpl; [reflexivity|].
  rewrite same_key, IH. reflexivity.
Qed.

Lemma remove_same_key (d : list (K * V)) :
  PyDict.remove eqb d k = PyDict.remove eqb d k'.
Proof.
  induction d as [|[x v] r IH]; simpl; [reflexivity|].
  rewrite same_key, IH. reflexivity.
Qed.

Lemma remove_absent (d : list (K * V)) :
  PyDict.get eqb d k = None -> PyDict.remove eqb d k = d.
Proof.
  induction d as [|[x v] r IH]; simpl; [reflexivity|].
  destruct (eqb x k); [discriminate|].
  intros H. rewrite IH by assumption. reflexivity.
Qed.

Hypothesis key_refl : eqb k k' = true.

Lemma get_set (d : list (K * V)) (v : V) :
  PyDict.get eqb (PyDict.set eqb d k v) k' = Some v.
Proof.
  induction d as [|[x w] r IH]; simpl.
  - rewrite key_refl. reflexivity.
  - destruct (eqb x k) eqn:E; simpl; rewrite <- same_key, E; [reflexivity|exact IH].
Qed.

Lemma remove_set (d : list (K * V)) (v : V) :
  PyDict.remove eqb (PyDict.set eqb d k v) k' = PyDict.remove eqb d k'.
Proof.
  induction d as [|[x w] r IH]; simpl.
  - rewrite key_refl. reflexivity.
  - destruct (eqb x k) eqn:E; simpl; rewrite <- same_key, E; [reflexivity|].
    rewrite IH. reflexivity.
Qed.

End DictFacts.

Lemma asset_same_key (a b : Asset) :
  asset_sid a = asset_sid b -> forall x, asset_eqb x a = asset_eqb x b.
Proof. intros H x. unfold asset_eqb. rewrite H. reflexivity. Qed.

Lemma asset_eqb_of_sid (a b : Asset) :
  asset_sid a = asset_sid b -> asset_eqb a b = true.
Proof. intros H. unfold asset_eqb. rewrite H. apply Z.eqb_refl. Qed.

(** ** Positions and transactions *)

Lemma held_false_amount (pt : PositionTracker.t) (a : Asset) :
  held pt a = false -> held_amount pt a = 0%Z.
Proof.
  unfold held, held_amount, PyDict.contains.
  destruct (PyDict.get asset_eqb (PositionTracker.positions pt) a);
    [discriminate|reflexivity].
Qed.

Lemma book_ok_of_absent (pt : PositionTracker.t) (a : Asset) :
  held pt a = false -> book_ok pt a.
Proof.
  unfold held, PyDict.contains, book_ok. intros H.
  destruct (PyDict.get asset_eqb (PositionTracker.positions pt) a) eqn:E;
    [discriminate|].
  split.
  - rewrite (remove_absent asset_eqb a) by exact E. exact E.
  - intros p Hp. discriminate.
Qed.

Lemma book_ok_held_iff (pt : PositionTracker.t) (a : Asset) :
  book_ok pt a -> (held pt a = false <-> held_amount pt a = 0%Z).
Proof.
  unfold book_ok, held, held_amount, PyDict.contains. intros [_ Hnz].
  destruct (PyDict.get asset_eqb (PositionTracker.positions pt) a) as [p|].
  - split; [discriminate|]. intros H. exfalso. exact (Hnz p eq_refl H).
  - split; reflexivity.
Qed.

(** The book after one transaction. *)
Lemma execute_transaction_positions (pt : PositionTracker.t) (txn : Transaction) :
  PositionTracker.positions (PositionTracker.execute_transaction pt txn)
  = let asset := txn_asset txn in
    let position :=
      Position_update
        (PositionTracker.position_or_new (PositionTracker.positions pt) asset) txn in
    let d := PyDict.set asset_eqb (PositionTracker.positions pt) asset position in
    if (pos_amount position =? 0)%Z then PyDict.remove asset_eqb d asset else d.
Proof.
  unfold PositionTracker.execute_transaction. simpl.
  match goal with |- context [(?x =? 0)%Z] => destruct (x =? 0)%Z end;
    [|reflexivity].
  match goal with |- context [PyDict.delitem ?e ?d ?k] =>
    destruct (PyDict.delitem e d k) end; reflexivity.
Qed.

(** One transaction in [a]: the held quantity moves by the transaction's
    amount, and the book stays well kept. *)
Lemma execute_transaction_step (pt : PositionTracker.t) (a : Asset) (txn : Transaction) :
  asset_sid (txn_asset txn) = asset_sid a ->
  book_ok pt a ->
  book_ok (PositionTracker.execute_transaction pt txn) a
  /\ held_amount (PositionTracker.execute_transaction pt txn) a
     = (held_amount pt a + txn_amount txn)%Z.
Proof.
  intros Hsid [Honce Hnz].
  pose proof (asset_same_key _ _ Hsid) as Hk.
  pose proof (asset_eqb_of_sid _ _ Hsid) as Hr.
  unfold book_ok, held_amount.
  rewrite execute_transaction_positions. cbv zeta.
  set (d := PositionTracker.positions pt) in *.
  set (p' := Position_update _ txn).
  assert (Hamt : pos_amount p' = (held_amount pt a + txn_amount txn)%Z).
  { unfold p', held_amount, PositionTracker.position_or_new. simpl.
    fold d. rewrite (get_same_key asset_eqb _ _ Hk d).
    destruct (PyDict.get asset_eqb d a); reflexivity. }
  unfold held_amount in Hamt. fold d in Hamt.
  destruct (pos_amount p' =? 0)%Z eqn:Ez.
  - apply Z.eqb_eq in Ez.
    rewrite (remove_same_key asset_eqb _ _ Hk).
    rewrite (remove_set asset_eqb _ _ Hk Hr).
    rewrite (remove_absent asset_eqb a _ Honce), Honce.
    repeat split; try congruence.
  - apply Z.eqb_neq in Ez.
    rewrite (remove_set asset_eqb _ _ Hk Hr), (get_set asset_eqb _ _ Hk Hr).
    repeat split; try assumption.
    intros p Hp. injection Hp as <-. exact Ez.
Qed.

Lemma execute_all_invariant (a : Asset) (txns : list Transaction) :
  forall pt : PositionTracker.t,
    Forall (fun txn => asset_sid (txn_asset txn) = asset_sid a) txns ->
    book_ok pt a ->
    book_ok (execute_all pt txns) a
    /\ held_amount (execute_all pt txns) a
       = (held_amount pt a + net_quantity txns)%Z.
Proof.
  induction txns as [|txn rest IH]; intros pt Hall Hok; simpl.
  - split; [exact Hok|lia].
  - inversion Hall as [|? ? Htxn Hrest]; subst.
    destruct (execute_transaction_step pt a txn Htxn Hok) as [Hok' Hamt].
    destruct (IH _ Hrest Hok') as [Hfinal Hsum].
    split; [exact Hfinal|].
    change (execute_all pt (txn :: rest))
      with (execute_all (PositionTracker.execute_transaction pt txn) rest).
    rewrite Hsum, Hamt. lia.
Qed.

(** C7.  Starting from a book that does not hold instrument [a], after any
    sequence of transactions in [a] run through [execute_transaction] the
    instrument is absent from the book exactly when the net signed quantity
    of the sequence is zero. *)
Theorem position_absent_iff_net_zero
  (pt : PositionTracker.t) (a : Asset) (txns : list Transaction) :
  held pt a = false ->
  Forall (fun txn => asset_sid (txn_asset txn) = asset_sid a) txns ->
  held (execute_all pt txns) a = false <-> net_quantity txns = 0%Z.
Proof.
  intros Habsent Hall.
  destruct (execute_all_invariant a txns pt Hall (book_ok_of_absent _ _ Habsent))
    as [Hok Hsum].
  rewrite (book_ok_held_iff _ _ Hok), Hsum, (held_false_amount _ _ Habsent).
  lia.
Qed.

Lemma position_absent_iff_net_zero_witness :
  held
    (execute_all (PositionTracker.init daily)
       [mkTransaction (Equity 1) 10 1 (10 # 1) None;
        mkTransaction (Equity 1) (-4) 2 (11 # 1) None;
        mkTransaction (Equity 1) (-6) 3 (12 # 1) None])
    (Equity 1) = false
  <-> net_quantity
        [mkTransaction (Equity 1) 10 1 (10 # 1) None;
         mkTransaction (Equity 1) (-4) 2 (11 # 1) None;
         mkTransaction (Equity 1) (-6) 3 (12 # 1) None] = 0%Z.
Proof.
  apply position_absent_iff_net_zero.
  - reflexivity.
  - repeat constructor.
Defined.

(** ** Leverage *)

Lemma stats_dirty (pt : PositionTracker.t) :
  PositionTracker.dirty_stats pt = true ->
  PositionTracker.stats pt
  = (Some (PositionTracker.compute_stats (PositionTracker.positions pt)),
     PositionTracker.with_stats_cache pt
       (Some (PositionTracker.compute_stats (PositionTracker.positions pt)))).
Proof. intros H. unfold PositionTracker.stats. rewrite H. reflexivity. Qed.

Lemma calculate_leverage_zero (exposure net_liquidation : Q) :
  net_liquidation == 0 -> Ledger._calculate_leverage exposure net_liquidation = Inf.
Proof.
  intros H. unfold Ledger._calculate_leverage.
  apply Qeq_bool_iff in H. rewrite H. reflexivity.
Qed.

Lemma calculate_leverage_nonzero (exposure net_liquidation : Q) :
  ~ net_liquidation == 0 ->
  Ledger._calculate_leverage exposure net_liquidation
  = Fin (exposure / net_liquidation).
Proof.
  intros H. unfold Ledger._calculate_leverage.
  destruct (Qeq_bool net_liquidation 0) eqn:E; [|reflexivity].
  apply Qeq_bool_iff in E. contradiction.
Qed.

(** C8.  With [s] the position statistics, [calculate_period_stats] returns
    [net_liquidation = cash + long_value + short_value]; both leverages are
    positive infinity when that sum is zero, whatever the exposures, and
    [exposure / net_liquidation] otherwise.  It raises nothing. *)
Theorem calculate_period_stats_leverage
  (l : Ledger.t) (s : PositionStats) (pt : PositionTracker.t) :
  PositionTracker.stats (Ledger.position_tracker l) = (Some s, pt) ->
  let net_liquidation := cash (Ledger.portfolio_ l) + long_value s + short_value s in
  exists gross_leverage net_leverage,
    Ledger.calculate_period_stats l
    = Ok (net_liquidation, gross_leverage, net_leverage,
          Ledger.with_position_tracker l pt)
    /\ (net_liquidation == 0 -> gross_leverage = Inf /\ net_leverage = Inf)
    /\ (~ net_liquidation == 0 ->
        gross_leverage = Fin (gross_exposure s / net_liquidation)
        /\ net_leverage = Fin (net_exposure s / net_liquidation)).
Proof.
  intros Hs nl.
  exists (Ledger._calculate_leverage (gross_exposure s) nl),
         (Ledger._calculate_leverage (net_exposure s) nl).
  split; [|split].
  - unfold Ledger.calculate_period_stats. rewrite Hs. reflexivity.
  - intros H. split; apply calculate_leverage_zero; exact H.
  - intros H. split; apply calculate_leverage_nonzero; exact H.
Qed.

Lemma calculate_period_stats_leverage_witness :
  let s :=
    PositionTracker.compute_stats
      (PositionTracker.positions (Ledger.position_tracker short_ledger)) in
  let pt :=
    PositionTracker.with_stats_cache (Ledger.position_tracker short_ledger) (Some s) in
  let net_liquidation :=
    cash (Ledger.portfolio_ short_ledger) + long_value s + short_value s in
  (net_liquidation == 0 /\ gross_exposure s == 100 # 1)
  /\ exists gross_leverage net_leverage,
       Ledger.calculate_period_stats short_ledger
       = Ok (net_liquidation, gross_leverage, net_leverage,
             Ledger.with_position_tracker short_ledger pt)
       /\ (net_liquidation == 0 -> gross_leverage = Inf /\ net_leverage = Inf)
       /\ (~ net_liquidation == 0 ->
           gross_leverage = Fin (gross_exposure s / net_liquidation)
           /\ net_leverage = Fin (net_exposure s / net_liquidation)).
Proof.
  intros s pt net_liquidation. split.
  - split; vm_compute; reflexivity.
  - apply (calculate_period_stats_leverage short_ledger s pt).
    vm_compute. reflexivity.
Defined.

(** ** Reading the portfolio and the account *)

Lemma stats_keeps_dirty (pt pt' : PositionTracker.t) (s : option PositionStats) :
  PositionTracker.stats pt = (s, pt') ->
  PositionTracker.dirty_stats pt' = PositionTracker.dirty_stats pt.
Proof.
  unfold PositionTracker.stats.
  destruct (PositionTracker.dirty_stats pt) eqn:E; simpl; intros H;
    injection H as _ <-; simpl; congruence.
Qed.

(** A successful read leaves the snapshot in the ledger and does not touch
    the tracker's dirty flag. *)
Lemma portfolio_read_state (l l' : Ledger.t) (p : Portfolio) :
  Ledger.portfolio l = Ok (p, l') ->
  Ledger.portfolio_ l' = p
  /\ PositionTracker.dirty_stats (Ledger.position_tracker l')
     = PositionTracker.dirty_stats (Ledger.position_tracker l).
Proof.
  unfold Ledger.portfolio.
  destruct (Ledger.dirty_portfolio l); simpl.
  - destruct (PositionTracker.stats (Ledger.position_tracker l)) as [s pt] eqn:Es.
    destruct s as [s|]; simpl; [|discriminate].
    destruct (Ledger._get_payout_total _ _) as [payout|e]; simpl; [|discriminate].
    intros H. injection H as <- <-. simpl.
    split; [reflexivity|]. exact (stats_keeps_dirty _ _ _ Es).
  - intros H. injection H as <- <-. split; reflexivity.
Qed.

(** For Python floats [account_as] is [Ledger.account]. *)
Lemma account_as_python (l : Ledger.t) :
  account_as python_float l = Ledger.account l.
Proof.
  unfold account_as, Ledger.account.
  destruct (Ledger.dirty_account l); [|reflexivity].
  destruct (Ledger.portfolio l) as [[p l1]|e]; cbv beta iota delta [bind];
    [|reflexivity].
  unfold true_div. destruct (py_div _ _) as [cushion|e];
    cbv beta iota delta [bind]; reflexivity.
Qed.





(** ** Compounded returns *)

Lemma process_transaction_frame (l l' : Ledger.t) (txn : Transaction) :
  Ledger.process_transaction l txn = Ok l' ->
  value_and_returns l' = value_and_returns l.
Proof.
  unfold Ledger.process_transaction.
  destruct (txn_asset txn) as [sid|sid multiplier]; cbv beta iota delta [bind].
  - intros H. injection H as <-. reflexivity.
  - destruct (PyDict.get asset_eqb _ _) as [old_price|].
    + destruct (held_position _ _) as [position|e];
        cbv beta iota delta [bind]; [|discriminate].
      destruct (_ =? 0)%Z; intros H; injection H as <-; reflexivity.
    + intros H. injection H as <-. reflexivity.
Qed.

Lemma process_order_frame (l l' : Ledger.t) (order : Order) :
  Ledger.process_order l order = Ok l' ->
  value_and_returns l' = value_and_returns l.
Proof.
  unfold Ledger.process_order.
  destruct (PyDict.get Z.eqb _ _) as [dt_orders|].
  - destruct (PyDict.move_to_end String.eqb _ _) as [d1|e];
      cbv beta iota delta [bind]; [|discriminate].
    destruct (PyDict.move_to_end String.eqb _ _) as [d2|e];
      cbv beta iota delta [bind]; [|discriminate].
    intros H. injection H as <-. reflexivity.
  - intros H. injection H as <-. reflexivity.
Qed.

Lemma process_dividends_frame (l l' : Ledger.t) (d : Z) (reader : AdjustmentReader) :
  Ledger.process_dividends l d reader = Ok l' ->
  value_and_returns l' = value_and_returns l.
Proof.
  unfold Ledger.process_dividends.
  match goal with |- context [bind ?r _] => destruct r as [pt|e] end;
    cbv beta iota delta [bind]; [|discriminate].
  destruct (PositionTracker.pay_dividends _ _) as [paid pt'].
  intros H. injection H as <-. reflexivity.
Qed.

Lemma mutate_frame (l l' : Ledger.t) (m : mutation) :
  mutate l m = Ok l' -> value_and_returns l' = value_and_returns l.
Proof.
  destruct m; simpl.
  - apply process_transaction_frame.
  - apply process_order_frame.
  - apply process_dividends_frame.
  - intros H. injection H as <-. reflexivity.
  - intros H. injection H as <-. reflexivity.
Qed.

Lemma mutate_all_frame (batch : list mutation) :
  forall l l', mutate_all l batch = Ok l' ->
               value_and_returns l' = value_and_returns l.
Proof.
  induction batch as [|m rest IH]; intros l l'; simpl.
  - intros H. injection H as <-. reflexivity.
  - destruct (mutate l m) as [l1|e] eqn:E; cbv beta iota delta [bind];
      [|discriminate].
    intros H. rewrite (IH _ _ H). exact (mutate_frame _ _ _ E).
Qed.








Example trading_values :
  portfolio_value (fst trading_read1) == 119 # 1
  /\ portfolio_value (fst trading_read2) == 90 # 1
  /\ returns (fst trading_read2) == - (1 # 10).
Proof. conjuncts; vm_compute; reflexivity. Qed.

Example two_step_values :
  portfolio_value (fst two_step_read1) == 120 # 1
  /\ portfolio_value (fst two_step_read2) == 90 # 1
  /\ returns (fst two_step_read2) == - (1 # 10).
Proof. conjuncts; vm_compute; reflexivity. Qed.

(** ** Leveraged instruments *)

(** What [process_transaction] pays for a leveraged instrument that has a
    reference price: the position is read after [execute_transaction] has
    run, so the payout is on the quantity held after the transaction. *)
Lemma process_transaction_payout
  (l : Ledger.t) (txn : Transaction) (sid : Z) (multiplier old_price : Q) :
  txn_asset txn = Future sid multiplier ->
  book_ok (Ledger.position_tracker l) (txn_asset txn) ->
  PyDict.get asset_eqb (Ledger.payout_last_sale_prices l) (txn_asset txn)
  = Some old_price ->
  (held_amount (Ledger.position_tracker l) (txn_asset txn) + txn_amount txn)%Z
  <> 0%Z ->
  exists l',
    Ledger.process_transaction l txn = Ok l'
    /\ cash (Ledger.portfolio_ l')
       = cash (Ledger.portfolio_ l)
         + (txn_price txn - old_price) * multiplier
           * inject_Z (held_amount (Ledger.position_tracker l) (txn_asset txn)
                       + txn_amount txn).
Proof.
  intros Hasset Hok Hold Hnz.
  destruct (execute_transaction_step _ _ txn eq_refl Hok) as [[_ Hnz'] Hamt].
  unfold held_amount in Hamt at 1.
  unfold Ledger.process_transaction.
  rewrite Hasset in *. cbn [Ledger.payout_last_sale_prices
    Ledger.set_dirty_portfolio Ledger.with_position_tracker Ledger.with_portfolio].
  rewrite Hold. unfold held_position.
  destruct (PyDict.get asset_eqb
              (PositionTracker.positions
                 (PositionTracker.execute_transaction (Ledger.position_tracker l) txn))
              (Future sid multiplier)) as [position|] eqn:Eg.
  - cbv beta iota delta [bind].
    destruct (pos_amount position + txn_amount txn =? 0)%Z;
      eexists; (split; [reflexivity|]); cbn; unfold Ledger._calculate_payout;
      rewrite Hamt; reflexivity.
  - exfalso. apply Hnz. rewrite <- Hamt. reflexivity.
Qed.

(** C1.  The run of the spec's scenario: a leveraged instrument with
    multiplier 5, two contracts opened at 50 (the price is recorded, cash is
    untouched), then one more bought at 55.  The second transaction adds
    [(55 - 50) * 5 * 3 = 75] to cash, the payout on the three contracts held
    after it, and not the [(55 - 50) * 5 * 2 = 50] on the two contracts held
    before it. *)
Theorem process_transaction_pays_on_new_amount :
  Ledger.process_transaction futures_start open_two_at_50 = Ok futures_opened
  /\ cash (Ledger.portfolio_ futures_opened)
     == cash (Ledger.portfolio_ futures_start)
  /\ PyDict.get asset_eqb (Ledger.payout_last_sale_prices futures_opened) contract
     = Some (50 # 1)
  /\ held_amount (Ledger.position_tracker futures_opened) contract = 2%Z
  /\ Ledger.process_transaction futures_opened add_one_at_55 = Ok futures_added
  /\ cash (Ledger.portfolio_ futures_added)
     - cash (Ledger.portfolio_ futures_opened) == 75 # 1
  /\ ~ cash (Ledger.portfolio_ futures_added)
       - cash (Ledger.portfolio_ futures_opened)
       == ((55 # 1) - (50 # 1)) * (5 # 1) * inject_Z 2.
Proof.
  conjuncts; try (vm_compute; reflexivity).
  vm_compute. discriminate.
Qed.

(** ** The outstanding payout *)

Lemma payout_loop_raises (positions : list (Asset * Position))
  (asset : Asset) (old_price : Q) (rest : list (Asset * Q)) (total : Q) :
  exists e, Ledger.payout_loop positions ((asset, old_price) :: rest) total = Raise e.
Proof.
  simpl. cbv beta iota delta [bind Ledger.positions_amount]. eauto.
Qed.

(** With a reference price on record, a read of the dirty portfolio never
    gets to the payout total: [_get_payout_total] raises in its first
    iteration. *)
Lemma portfolio_raises_with_reference_price (l : Ledger.t) :
  Ledger.dirty_portfolio l = true ->
  Ledger.payout_last_sale_prices l <> [] ->
  exists e, Ledger.portfolio l = Raise e.
Proof.
  intros Hdirty Hne. unfold Ledger.portfolio. rewrite Hdirty.
  cbv beta iota delta [negb].
  destruct (PositionTracker.stats (Ledger.position_tracker l)) as [s pt].
  destruct s as [s|]; cbv beta iota delta [bind]; [|eauto].
  unfold Ledger._get_payout_total.
  cbn [Ledger.payout_last_sale_prices Ledger.with_position_tracker].
  destruct (Ledger.payout_last_sale_prices l) as [|[asset old_price] rest];
    [contradiction|].
  destruct (payout_loop_raises (PositionTracker.positions pt) asset old_price rest 0)
    as [e He].
  rewrite He. eauto.
Qed.

(** Without reference prices the read is total and the payout is zero. *)
Lemma portfolio_read_total (l : Ledger.t) :
  PositionTracker.dirty_stats (Ledger.position_tracker l) = true ->
  Ledger.payout_last_sale_prices l = [] ->
  exists p l', Ledger.portfolio l = Ok (p, l')
    /\ (Ledger.dirty_portfolio l = true ->
        cash p = starting_cash (Ledger.portfolio_ l)
                 + cash_flow (Ledger.portfolio_ l) + 0).
Proof.
  intros Hs Hp. unfold Ledger.portfolio.
  destruct (Ledger.dirty_portfolio l); cbv beta iota delta [negb].
  - rewrite (stats_dirty _ Hs). cbv beta iota delta [bind].
    unfold Ledger._get_payout_total.
    cbn [Ledger.payout_last_sale_prices Ledger.with_position_tracker].
    rewrite Hp. cbn [Ledger.payout_loop]. cbv beta iota delta [bind].
    eexists. eexists. split; [reflexivity|]. intros _. reflexivity.
  - eexists. eexists. split; [reflexivity|]. discriminate.
Qed.

(** C3.  Two contracts of a leveraged instrument are opened at 50, which
    records a reference price and marks the portfolio dirty.  Reading the
    portfolio then raises [AttributeError] ([positions.amount]) instead of
    returning a snapshot with the payout total in its cash. *)
Theorem portfolio_read_with_reference_price_raises :
  Ledger.dirty_portfolio futures_opened = true
  /\ Ledger.payout_last_sale_prices futures_opened = [(contract, 50 # 1)]
  /\ held (Ledger.position_tracker futures_opened) contract = true
  /\ Ledger._get_payout_total futures_opened
       (PositionTracker.positions (Ledger.position_tracker futures_opened))
     = Raise AttributeError
  /\ Ledger.portfolio futures_opened = Raise AttributeError.
Proof. conjuncts; vm_compute; reflexivity. Qed.

(** ** Paying dividends *)

(** Paying consumes the cash obligations of the day and leaves the stock
    obligations where they are. *)
Lemma pay_dividends_obligations (pt : PositionTracker.t) (d : Z) :
  PositionTracker.unpaid_dividends (snd (PositionTracker.pay_dividends pt d))
  = PyDict.remove Z.eqb (PositionTracker.unpaid_dividends pt) d
  /\ PositionTracker.unpaid_stock_dividends (snd (PositionTracker.pay_dividends pt d))
     = PositionTracker.unpaid_stock_dividends pt.
Proof.
  unfold PositionTracker.pay_dividends.
  destruct (PyDict.get Z.eqb (PositionTracker.unpaid_dividends pt) d) eqn:E; simpl.
  - split; reflexivity.
  - split; [|reflexivity].
    symmetry. apply (remove_absent Z.eqb d). exact E.
Qed.

Lemma pay_dividends_nothing_owed (pt : PositionTracker.t) (d : Z) :
  PyDict.get Z.eqb (PositionTracker.unpaid_dividends pt) d = None ->
  fst (PositionTracker.pay_dividends pt d) = 0.
Proof.
  intros H. unfold PositionTracker.pay_dividends. rewrite H. reflexivity.
Qed.

(** The cash half of the idempotence: when [d] keys one obligation list at
    most, the second call pays nothing. *)
Lemma pay_dividends_twice_cash (pt : PositionTracker.t) (d : Z) :
  PyDict.get Z.eqb (PyDict.remove Z.eqb (PositionTracker.unpaid_dividends pt) d) d
  = None ->
  fst (PositionTracker.pay_dividends
         (snd (PositionTracker.pay_dividends pt d)) d) = 0.
Proof.
  intros H. apply pay_dividends_nothing_owed.
  destruct (pay_dividends_obligations pt d) as [-> _]. exact H.
Qed.

(** C2.  Ten shares of instrument 1 earn, for pay-date 5, a cash dividend of
    5 and a stock dividend of 3 shares of instrument 2.  The first
    [pay_dividends 5] pays 5 and credits 3 shares; the cash obligations are
    gone but the stock obligations are still listed, so the second
    [pay_dividends 5] pays 0 and credits 3 shares again: 6 are held. *)
Theorem pay_dividends_twice_credits_stock_twice :
  fst paid_once == 5 # 1
  /\ held_amount (snd paid_once) (Equity 2) = 3%Z
  /\ PyDict.get Z.eqb (PositionTracker.unpaid_dividends (snd paid_once)) 5%Z = None
  /\ PyDict.get Z.eqb (PositionTracker.unpaid_stock_dividends (snd paid_once)) 5%Z
     = Some [mkStockPayment (Equity 1) (Equity 2) 3]
  /\ fst paid_twice == 0
  /\ held_amount (snd paid_twice) (Equity 2) = 6%Z.
Proof. conjuncts; vm_compute; reflexivity. Qed.

(** ** Price synchronisation and the cached snapshot *)

(** [Ledger.sync_last_sale_prices] assigns [_portfolio_dirty]; the flag that
    the [portfolio] property tests is left as it was. *)
Lemma sync_keeps_dirty_portfolio (l : Ledger.t) (dt : Z) (dp : DataPortal) (h : bool) :
  Ledger.dirty_portfolio (Ledger.sync_last_sale_prices l dt dp h)
  = Ledger.dirty_portfolio l
  /\ Ledger.portfolio_dirty_attr (Ledger.sync_last_sale_prices l dt dp h)
     = Some true.
Proof. split; reflexivity. Qed.

Lemma sync_then_read_is_cached (l : Ledger.t) (dt : Z) (dp : DataPortal) (h : bool) :
  Ledger.dirty_portfolio l = false ->
  Ledger.portfolio (Ledger.sync_last_sale_prices l dt dp h)
  = Ok (Ledger.portfolio_ l, Ledger.sync_last_sale_prices l dt dp h).
Proof.
  intros H. unfold Ledger.portfolio.
  destruct (sync_keeps_dirty_portfolio l dt dp h) as [-> _]. rewrite H.
  reflexivity.
Qed.

(** C4.  Ten shares bought at 10 and marked at 10; the portfolio is read
    (positions value 100, portfolio value 100000).  The shares are then
    marked at 12.  The next read returns the snapshot of the first read,
    positions value 100 and portfolio value 100000, although the book is
    now worth 120. *)
Theorem sync_then_read_returns_stale_snapshot :
  positions_value (fst sync_first_read) == 100 # 1
  /\ Ledger.dirty_portfolio (snd sync_first_read) = false
  /\ option_map pos_last_sale_price
       (PyDict.get asset_eqb
          (PositionTracker.positions (Ledger.position_tracker sync_resynced))
          (Equity 1)) = Some (12 # 1)
  /\ net_value
       (PositionTracker.compute_stats
          (PositionTracker.positions (Ledger.position_tracker sync_resynced)))
     == 120 # 1
  /\ Ledger.dirty_portfolio sync_resynced = false
  /\ Ledger.portfolio sync_resynced = Ok (fst sync_first_read, sync_resynced)
  /\ positions_value (fst (read_of (Ledger.portfolio sync_resynced) sync_resynced))
     == 100 # 1
  /\ portfolio_value (fst (read_of (Ledger.portfolio sync_resynced) sync_resynced))
     == 100000 # 1.
Proof. conjuncts; vm_compute; reflexivity. Qed.

(** ** Exposure statistics *)

(** C5.  Two long positions with exposures 100 and 20.  The recomputed
    statistics count both and sum both values ([long_value] is 120), but
    [long_exposure] is 20, the exposure of the position iterated last, and
    not the sum 120; gross and net exposure follow it. *)
Theorem stats_long_exposure_is_last_long :
  exists s pt,
    PositionTracker.stats two_longs = (Some s, pt)
    /\ longs_count s = 2%Z
    /\ long_value s == 120 # 1
    /\ sum_long_exposure (PositionTracker.positions two_longs) == 120 # 1
    /\ long_exposure s == 20 # 1
    /\ ~ long_exposure s == sum_long_exposure (PositionTracker.positions two_longs)
    /\ gross_exposure s == 20 # 1
    /\ net_exposure s == 20 # 1.
Proof.
  eexists. eexists. split; [vm_compute; reflexivity|].
  conjuncts; try (vm_compute; reflexivity).
  vm_compute. discriminate.
Qed.

(** ** The order journals *)

Lemma last_key_app {V : Type} (d : list (string * V)) (k : string) (v : V) :
  last_key (d ++ [(k, v)]) = Some k.
Proof.
  unfold last_key. rewrite map_app. simpl. apply last_last.
Qed.

Lemma entry_set (d : list (string * Order)) (k : string) (v : Order) :
  PyDict.entry String.eqb (PyDict.set String.eqb d k v) k = Some (k, v).
Proof.
  induction d as [|[k' v'] r IH]; simpl.
  - rewrite String.eqb_refl. reflexivity.
  - destruct (String.eqb k' k) eqn:E; simpl; rewrite E.
    + apply String.eqb_eq in E. subst. reflexivity.
    + exact IH.
Qed.

(** When the order's timestamp already has a bucket, the order ends up last
    in the per-id journal and in the bucket. *)
Lemma process_order_known_timestamp (l : Ledger.t) (order : Order)
  (dt_orders : list (string * Order)) :
  PyDict.get Z.eqb (Ledger.orders_by_modified l) (order_dt order) = Some dt_orders ->
  exists l' bucket,
    Ledger.process_order l order = Ok l'
    /\ last_key (Ledger.orders_by_id l') = Some (order_id order)
    /\ PyDict.get Z.eqb (Ledger.orders_by_modified l') (order_dt order) = Some bucket
    /\ last_key bucket = Some (order_id order).
Proof.
  intros H. unfold Ledger.process_order. rewrite H.
  unfold PyDict.move_to_end. rewrite !entry_set.
  cbv beta iota delta [bind].
  eexists. eexists. split; [reflexivity|].
  cbn [Ledger.orders_by_id Ledger.orders_by_modified Ledger.with_orders].
  split; [apply last_key_app|].
  split; [|apply last_key_app].
  apply (get_set Z.eqb (order_dt order) (order_dt order)).
  - reflexivity.
  - apply Z.eqb_refl.
Qed.

(** C6.  Orders "a" and "b" are recorded at time 1, then "a" again, filled,
    at time 2, a timestamp with no bucket yet.  The per-id journal holds one
    entry for "a", the latest record, and the new bucket holds it alone; but
    in the per-id journal the entry has kept its first place, before "b",
    instead of moving to the end. *)
Theorem process_order_new_timestamp_keeps_place :
  Ledger.process_order orders_placed order_a_filled = Ok orders_modified
  /\ PyDict.keys (Ledger.orders_by_id orders_placed) = ["a"; "b"]%string
  /\ PyDict.count String.eqb (Ledger.orders_by_id orders_modified) "a"%string = 1%nat
  /\ PyDict.get String.eqb (Ledger.orders_by_id orders_modified) "a"%string
     = Some order_a_filled
  /\ PyDict.get Z.eqb (Ledger.orders_by_modified orders_modified) 2%Z
     = Some [("a"%string, order_a_filled)]
  /\ PyDict.keys (Ledger.orders_by_id orders_modified) = ["a"; "b"]%string
  /\ last_key (Ledger.orders_by_id orders_modified) = Some "b"%string
  /\ last_key (Ledger.orders_by_id orders_modified) <> Some (order_id order_a_filled).
Proof.
  conjuncts; try (vm_compute; reflexivity).
  vm_compute. discriminate.
Qed.

(** ** More on dictionaries *)

Section DictOtherKey.
Context {K V : Type}.
Variable eqb : K -> K -> bool.
Variables k k' : K.
Hypothesis other_key : forall x, eqb x k = true -> eqb x k' = false.

Lemma get_remove_other (d : list (K * V)) :
  PyDict.get eqb (PyDict.remove eqb d k) k' = PyDict.get eqb d k'.
Proof.
  induction d as [|[x v] r IH]; simpl; [reflexivity|].
  destruct (eqb x k) eqn:E; simpl.
  - rewrite (other_key _ E). reflexivity.
  - rewrite IH. reflexivity.
Qed.

Hypothesis other_key_new : eqb k k' = false.

Lemma get_set_other (d : list (K * V)) (v : V) :
  PyDict.get eqb (PyDict.set eqb d k v) k' = PyDict.get eqb d k'.
Proof.
  induction d as [|[x w] r IH]; simpl.
  - rewrite other_key_new. reflexivity.
  - destruct (eqb x k) eqn:E; simpl.
    + rewrite (other_key _ E). reflexivity.
    + rewrite IH. reflexivity.
Qed.

End DictOtherKey.

Lemma asset_other_key (a b : Asset) :
  asset_sid a <> asset_sid b ->
  (forall x, asset_eqb x a = true -> asset_eqb x b = false)
  /\ asset_eqb a b = false.
Proof.
  intros H. unfold asset_eqb. split.
  - intros x Hx. apply Z.eqb_eq in Hx. apply Z.eqb_neq. congruence.
  - apply Z.eqb_neq. exact H.
Qed.

Lemma asset_eqb_refl (a : Asset) : asset_eqb a a = true.
Proof. apply Z.eqb_refl. Qed.

Lemma Forall_values_set {V : Type} (P : V -> Prop) (eqb : Asset -> Asset -> bool)
  (d : list (Asset * V)) (k : Asset) (v : V) :
  Forall P (PyDict.values d) -> P v ->
  Forall P (PyDict.values (PyDict.set eqb d k v)).
Proof.
  unfold PyDict.values. intros Hd Hv.
  induction d as [|[x w] r IH]; simpl.
  - constructor; [exact Hv|constructor].
  - inversion Hd as [|? ? Hw Hr]; subst.
    destruct (eqb x k); simpl; constructor; auto.
Qed.

Lemma Forall_values_remove {V : Type} (P : V -> Prop) (eqb : Asset -> Asset -> bool)
  (d : list (Asset * V)) (k : Asset) :
  Forall P (PyDict.values d) -> Forall P (PyDict.values (PyDict.remove eqb d k)).
Proof.
  unfold PyDict.values. intros Hd.
  induction d as [|[x w] r IH]; simpl; [constructor|].
  inversion Hd as [|? ? Hw Hr]; subst.
  destruct (eqb x k); simpl; [exact Hr|constructor; auto].
Qed.

(** ** The book under transactions and updates *)

(** A transaction in one instrument leaves the position of every other
    instrument as it was. *)
Theorem execute_transaction_other_asset
  (pt : PositionTracker.t) (txn : Transaction) (b : Asset) :
  asset_sid (txn_asset txn) <> asset_sid b ->
  PyDict.get asset_eqb
    (PositionTracker.positions (PositionTracker.execute_transaction pt txn)) b
  = PyDict.get asset_eqb (PositionTracker.positions pt) b.
Proof.
  intros H. destruct (asset_other_key _ _ H) as [Ho Hn].
  rewrite execute_transaction_positions. cbv zeta.
  destruct (pos_amount _ =? 0)%Z.
  - rewrite (get_remove_other asset_eqb _ _ Ho).
    apply (get_set_other asset_eqb _ _ Ho Hn).
  - apply (get_set_other asset_eqb _ _ Ho Hn).
Qed.

Lemma execute_transaction_other_asset_witness :
  PyDict.get asset_eqb
    (PositionTracker.positions
       (PositionTracker.execute_transaction two_longs
          (mkTransaction (Equity 1) (-10) 2 (11 # 1) None))) (Equity 2)
  = PyDict.get asset_eqb (PositionTracker.positions two_longs) (Equity 2).
Proof.
  apply execute_transaction_other_asset. simpl. discriminate.
Defined.

Lemma execute_transaction_keeps_nonempty
  (pt : PositionTracker.t) (txn : Transaction) :
  Forall (fun p => pos_amount p <> 0%Z)
    (PyDict.values (PositionTracker.positions pt)) ->
  Forall (fun p => pos_amount p <> 0%Z)
    (PyDict.values
       (PositionTracker.positions (PositionTracker.execute_transaction pt txn))).
Proof.
  intros H. rewrite execute_transaction_positions. cbv zeta.
  destruct (pos_amount _ =? 0)%Z eqn:E.
  - rewrite (remove_set asset_eqb (txn_asset txn) (txn_asset txn)
               (fun x => eq_refl) (asset_eqb_refl _)).
    apply Forall_values_remove. exact H.
  - apply Forall_values_set; [exact H|].
    apply Z.eqb_neq. exact E.
Qed.

Lemma execute_all_keeps_nonempty (txns : list Transaction) :
  forall pt,
    Forall (fun p => pos_amount p <> 0%Z)
      (PyDict.values (PositionTracker.positions pt)) ->
    Forall (fun p => pos_amount p <> 0%Z)
      (PyDict.values (PositionTracker.positions (execute_all pt txns))).
Proof.
  induction txns as [|txn rest IH]; intros pt H; [exact H|].
  apply (IH (PositionTracker.execute_transaction pt txn)).
  apply execute_transaction_keeps_nonempty. exact H.
Qed.

(** No transaction leaves an empty position behind: a book whose positions
    all hold shares stays so, whatever sequence of transactions is
    executed. *)
Theorem transactions_leave_no_empty_position
  (pt : PositionTracker.t) (txns : list Transaction) :
  Forall (fun p => pos_amount p <> 0%Z)
    (PyDict.values (PositionTracker.positions pt)) ->
  Forall (fun p => pos_amount p <> 0%Z)
    (PyDict.values (PositionTracker.positions (execute_all pt txns))).
Proof. apply execute_all_keeps_nonempty. Qed.

Lemma transactions_leave_no_empty_position_witness :
  Forall (fun p => pos_amount p <> 0%Z)
    (PyDict.values
       (PositionTracker.positions
          (execute_all two_longs
             [mkTransaction (Equity 1) (-10) 2 (11 # 1) None;
              mkTransaction (Equity 3) 4 2 (7 # 1) None]))).
Proof.
  apply transactions_leave_no_empty_position.
  vm_compute. repeat constructor; discriminate.
Defined.

Lemma filter_all {A : Type} (f : A -> bool) (xs : list A) :
  Forall (fun x => f x = true) xs -> filter f xs = xs.
Proof.
  induction 1 as [|x r Hx Hr IH]; simpl; [reflexivity|].
  rewrite Hx, IH. reflexivity.
Qed.

(** Whatever transactions a fresh tracker has executed, [get_positions_list]
    lists every position of the book: it has nothing empty to filter. *)
Theorem get_positions_list_after_transactions
  (freq : DataFrequency) (txns : list Transaction) :
  PositionTracker.get_positions_list (execute_all (PositionTracker.init freq) txns)
  = PyDict.values
      (PositionTracker.positions (execute_all (PositionTracker.init freq) txns)).
Proof.
  unfold PositionTracker.get_positions_list. apply filter_all.
  assert (H := execute_all_keeps_nonempty txns (PositionTracker.init freq)
                 (Forall_nil _)).
  revert H. apply Forall_impl. intros p Hp.
  apply negb_true_iff. apply Z.eqb_neq. exact Hp.
Qed.

(** [update_position] overwrites the fields it is given and keeps the
    others; the instrument is in the book afterwards even when the amount
    given is zero, and no other instrument is touched. *)
Theorem update_position_lookup
  (pt : PositionTracker.t) (a b : Asset) (amount : option Z)
  (last_sale_price : option Q) (last_sale_date : option Z) (cost_basis : option Q) :
  let old := PositionTracker.position_or_new (PositionTracker.positions pt) a in
  let pt' :=
    PositionTracker.update_position pt a amount last_sale_price last_sale_date
      cost_basis in
  (exists p,
     PyDict.get asset_eqb (PositionTracker.positions pt') a = Some p
     /\ pos_amount p = match amount with Some x => x | None => pos_amount old end
     /\ pos_last_sale_price p
        = match last_sale_price with Some x => x | None => pos_last_sale_price old end
     /\ pos_cost_basis p
        = match cost_basis with Some x => x | None => pos_cost_basis old end
     /\ pos_last_sale_date p
        = match last_sale_date with
          | Some x => Some x
          | None => pos_last_sale_date old
          end
     /\ pos_asset p = pos_asset old)
  /\ (asset_sid a <> asset_sid b ->
      PyDict.get asset_eqb (PositionTracker.positions pt') b
      = PyDict.get asset_eqb (PositionTracker.positions pt) b).
Proof.
  intros old pt'. unfold pt', PositionTracker.update_position.
  cbn [PositionTracker.positions PositionTracker.with_positions
       PositionTracker.with_dirty_stats].
  split.
  - eexists. split.
    + apply (get_set asset_eqb a a (fun x => eq_refl) (asset_eqb_refl a)).
    + conjuncts; reflexivity.
  - intros H. destruct (asset_other_key _ _ H) as [Ho Hn].
    apply (get_set_other asset_eqb _ _ Ho Hn).
Qed.

Lemma update_position_lookup_witness :
  held (PositionTracker.update_position two_longs (Equity 1) (Some 0%Z) None None None)
    (Equity 1) = true
  /\ held_amount
       (PositionTracker.update_position two_longs (Equity 1) (Some 0%Z) None None None)
       (Equity 2) = 5%Z.
Proof.
  destruct (update_position_lookup two_longs (Equity 1) (Equity 2)
              (Some 0%Z) None None None) as [[p [Hp _]] Hother].
  split.
  - unfold held, PyDict.contains. rewrite Hp. reflexivity.
  - unfold held_amount. rewrite Hother; [reflexivity|]. simpl. discriminate.
Defined.

(** ** Commissions and splits *)

Lemma with_position_tracker_same (l : Ledger.t) :
  Ledger.with_position_tracker l (Ledger.position_tracker l) = l.
Proof. destruct l; reflexivity. Qed.

(** A commission always leaves cash flow lower by its cost and marks the
    portfolio and the account dirty; when the instrument is not held the
    tracker, its dirty flag included, is left as it was. *)
Theorem process_commission_effect
  (adjust : Position -> Asset -> Q -> Position)
  (l : Ledger.t) (asset : Asset) (cost : Q) :
  let l' := Ledger.process_commission adjust l asset cost in
  cash_flow (Ledger.portfolio_ l') = cash_flow (Ledger.portfolio_ l) - cost
  /\ Ledger.dirty_portfolio l' = true
  /\ Ledger.dirty_account l' = true
  /\ (held (Ledger.position_tracker l) asset = false ->
      Ledger.position_tracker l' = Ledger.position_tracker l).
Proof.
  intros l'. conjuncts; try reflexivity.
  unfold held, PyDict.contains. intros H.
  unfold l', Ledger.process_commission, PositionTracker.handle_commission.
  destruct (PyDict.get asset_eqb _ asset); [discriminate|reflexivity].
Qed.

Lemma process_commission_effect_witness :
  Ledger.position_tracker
    (Ledger.process_commission no_adjustment short_ledger (Equity 9) (3 # 1))
  = Ledger.position_tracker short_ledger.
Proof.
  apply (process_commission_effect no_adjustment short_ledger (Equity 9) (3 # 1)).
  reflexivity.
Defined.

Lemma handle_splits_none_held
  (handle_split : Position -> Asset -> Q -> Position * Q)
  (splits : list (Asset * Q)) :
  forall (pt : PositionTracker.t) (total : Q),
    Forall (fun split => held pt (fst split) = false) splits ->
    fold_left (PositionTracker.split_step handle_split) splits (total, pt)
    = (total, pt).
Proof.
  induction splits as [|[asset ratio] rest IH]; intros pt total H; [reflexivity|].
  inversion H as [|? ? Hhead Hrest]; subst. simpl.
  unfold held, PyDict.contains in Hhead. simpl in Hhead.
  destruct (PyDict.get asset_eqb (PositionTracker.positions pt) asset);
    [discriminate|].
  apply IH. exact Hrest.
Qed.

(** Splits of instruments that are not held leave no cash and change
    nothing: the ledger after [process_splits] is the ledger before it, dirty
    flags included. *)
Theorem process_splits_none_held
  (handle_split : Position -> Asset -> Q -> Position * Q)
  (l : Ledger.t) (splits : list (Asset * Q)) :
  Forall (fun split => held (Ledger.position_tracker l) (fst split) = false) splits ->
  PositionTracker.handle_splits handle_split (Ledger.position_tracker l) splits
  = (0, Ledger.position_tracker l)
  /\ Ledger.process_splits handle_split l splits = l.
Proof.
  intros H.
  assert (E := handle_splits_none_held handle_split splits _ 0 H).
  split; [exact E|].
  unfold Ledger.process_splits, PositionTracker.handle_splits. rewrite E.
  cbn. apply with_position_tracker_same.
Qed.

Lemma process_splits_none_held_witness :
  Ledger.process_splits unit_leftover short_ledger [(Equity 8, 2 # 1); (Equity 9, 1 # 2)]
  = short_ledger.
Proof.
  apply (process_splits_none_held unit_leftover short_ledger).
  repeat constructor.
Defined.

(** A split of a held instrument that leaves cash adds it to cash flow and
    marks the portfolio dirty; one that leaves none marks nothing, although
    the position may have changed. *)
Theorem process_splits_leftover
  (handle_split : Position -> Asset -> Q -> Position * Q)
  (l : Ledger.t) (splits : list (Asset * Q)) :
  let leftover :=
    fst (PositionTracker.handle_splits handle_split (Ledger.position_tracker l) splits) in
  let l' := Ledger.process_splits handle_split l splits in
  (0 < leftover ->
   Ledger.dirty_portfolio l' = true
   /\ cash_flow (Ledger.portfolio_ l') = cash_flow (Ledger.portfolio_ l) + leftover)
  /\ (leftover <= 0 ->
      Ledger.dirty_portfolio l' = Ledger.dirty_portfolio l
      /\ Ledger.portfolio_ l' = Ledger.portfolio_ l).
Proof.
  intros leftover l'. unfold l', leftover, Ledger.process_splits.
  destruct (PositionTracker.handle_splits handle_split _ splits) as [cash_left pt].
  cbn [fst]. unfold Qlt_bool.
  destruct (Qle_bool cash_left 0) eqn:E; cbn [negb].
  - apply Qle_bool_iff in E. split.
    + intros H. exfalso. exact (Qlt_not_le _ _ H E).
    + intros _. split; reflexivity.
  - split.
    + intros _. split; reflexivity.
    + intros H. apply Qle_bool_iff in H. congruence.
Qed.

Lemma process_splits_leftover_witness :
  Ledger.dirty_portfolio
    (Ledger.process_splits unit_leftover (snd sync_first_read) [(Equity 1, 2 # 1)])
  = true
  /\ cash_flow
       (Ledger.portfolio_
          (Ledger.process_splits unit_leftover (snd sync_first_read) [(Equity 1, 2 # 1)]))
     = cash_flow (Ledger.portfolio_ (snd sync_first_read))
       + fst (PositionTracker.handle_splits unit_leftover
                (Ledger.position_tracker (snd sync_first_read)) [(Equity 1, 2 # 1)]).
Proof.
  apply (process_splits_leftover unit_leftover (snd sync_first_read)
           [(Equity 1, 2 # 1)]).
  vm_compute. reflexivity.
Defined.

(** ** Earning and paying dividends *)

Lemma pay_dividends_cash (pt : PositionTracker.t) (d : Z) :
  fst (PositionTracker.pay_dividends pt d) = owed_on pt d.
Proof.
  unfold PositionTracker.pay_dividends, owed_on.
  destruct (PyDict.get Z.eqb (PositionTracker.unpaid_dividends pt) d); reflexivity.
Qed.

Lemma get_append_under {A : Type} (u : list (Z * list A)) (d : Z) (x : A) :
  PyDict.get Z.eqb (PositionTracker.append_under u d x) d
  = Some (match PyDict.get Z.eqb u d with Some xs => xs | None => [] end ++ [x]).
Proof.
  unfold PositionTracker.append_under.
  destruct (PyDict.get Z.eqb u d);
    apply (get_set Z.eqb d d (fun x => eq_refl) (Z.eqb_refl d)).
Qed.

Lemma fold_cash_app (xs : list CashPayment) (x : CashPayment) (acc : Q) :
  fold_left (fun total payment => total + cp_amount payment) (xs ++ [x]) acc
  = fold_left (fun total payment => total + cp_amount payment) xs acc + cp_amount x.
Proof. rewrite fold_left_app. reflexivity. Qed.

(** Earning cash dividends touches only the cash obligations. *)
Lemma earn_cash_frame (dividends : list Dividend) :
  forall pt pt',
    PositionTracker.earn_cash pt dividends = Ok pt' ->
    PositionTracker.positions pt' = PositionTracker.positions pt
    /\ PositionTracker.unpaid_stock_dividends pt'
       = PositionTracker.unpaid_stock_dividends pt.
Proof.
  induction dividends as [|dv rest IH]; intros pt pt'; simpl.
  - intros H. injection H as <-. split; reflexivity.
  - destruct (held_position _ _) as [position|e];
      cbv beta iota delta [bind]; [|discriminate].
    intros H. destruct (IH _ _ H) as [-> ->]. split; reflexivity.
Qed.

Lemma earn_stock_frame (stock_dividends : list StockDividend) :
  forall pt pt',
    PositionTracker.earn_stock pt stock_dividends = Ok pt' ->
    PositionTracker.positions pt' = PositionTracker.positions pt
    /\ PositionTracker.unpaid_dividends pt' = PositionTracker.unpaid_dividends pt.
Proof.
  induction stock_dividends as [|dv rest IH]; intros pt pt'; simpl.
  - intros H. injection H as <-. split; reflexivity.
  - destruct (held_position _ _) as [position|e];
      cbv beta iota delta [bind]; [|discriminate].
    intros H. destruct (IH _ _ H) as [-> ->]. split; reflexivity.
Qed.

Lemma held_amount_positions (pt pt' : PositionTracker.t) (a : Asset) :
  PositionTracker.positions pt' = PositionTracker.positions pt ->
  held_amount pt' a = held_amount pt a.
Proof. unfold held_amount. intros ->. reflexivity. Qed.

Lemma cash_owed_positions (pt pt' : PositionTracker.t) (dividends : list Dividend) :
  PositionTracker.positions pt' = PositionTracker.positions pt ->
  cash_owed pt' dividends = cash_owed pt dividends.
Proof.
  intros H. induction dividends as [|dv rest IH]; simpl; [reflexivity|].
  rewrite IH, (held_amount_positions _ _ _ H). reflexivity.
Qed.

Lemma earn_cash_owed (d : Z) (dividends : list Dividend) :
  forall pt pt',
    Forall (fun dv => div_pay_date dv = d) dividends ->
    PositionTracker.earn_cash pt dividends = Ok pt' ->
    owed_on pt' d == owed_on pt d + cash_owed pt dividends.
Proof.
  induction dividends as [|dv rest IH]; intros pt pt' Hall; simpl.
  - intros H. injection H as <-. ring.
  - inversion Hall as [|? ? Hd Hrest]; subst.
    unfold held_position, held_amount.
    destruct (PyDict.get asset_eqb (PositionTracker.positions pt) (div_asset dv))
      as [position|]; cbv beta iota delta [bind]; [|discriminate].
    intros H. rewrite (IH _ _ Hrest H).
    match goal with
    | |- context [cash_owed (PositionTracker.with_unpaid_dividends pt ?u) rest] =>
        rewrite (cash_owed_positions (PositionTracker.with_unpaid_dividends pt u)
                   pt rest eq_refl)
    end.
    unfold owed_on at 1.
    cbn [PositionTracker.unpaid_dividends PositionTracker.with_unpaid_dividends].
    rewrite get_append_under, fold_cash_app.
    fold (owed_on pt (div_pay_date dv)).
    cbn [cp_amount Position_earn_dividend]. ring.
Qed.

(** What is earned is what is paid: after [earn_dividends] has recorded cash
    dividends that all fall due on [d], [pay_dividends d] pays what was owed
    on [d] before plus, for each dividend, the quantity held at earning time
    times the per-share amount. *)
Theorem earn_then_pay_dividends
  (pt pt' : PositionTracker.t) (d : Z)
  (dividends : list Dividend) (stock_dividends : list StockDividend) :
  Forall (fun dv => div_pay_date dv = d) dividends ->
  PositionTracker.earn_dividends pt dividends stock_dividends = Ok pt' ->
  fst (PositionTracker.pay_dividends pt' d)
  == fst (PositionTracker.pay_dividends pt d) + cash_owed pt dividends.
Proof.
  intros Hall. unfold PositionTracker.earn_dividends.
  destruct (PositionTracker.earn_cash pt dividends) as [pt1|e] eqn:E;
    cbv beta iota delta [bind]; [|discriminate].
  intros H. rewrite !pay_dividends_cash.
  destruct (earn_stock_frame _ _ _ H) as [_ Hu].
  unfold owed_on at 1. rewrite Hu. fold (owed_on pt1 d).
  exact (earn_cash_owed d dividends pt pt1 Hall E).
Qed.

Lemma earn_then_pay_dividends_witness :
  fst (PositionTracker.pay_dividends dividend_book 5)
  == fst (PositionTracker.pay_dividends
            (PositionTracker.execute_transaction (PositionTracker.init daily)
               (mkTransaction (Equity 1) 10 1 (10 # 1) None)) 5)
     + cash_owed
         (PositionTracker.execute_transaction (PositionTracker.init daily)
            (mkTransaction (Equity 1) 10 1 (10 # 1) None))
         [mkDividend (Equity 1) (1 # 2) 5].
Proof.
  apply (earn_then_pay_dividends _ dividend_book 5
           [mkDividend (Equity 1) (1 # 2) 5]
           [mkStockDividend (Equity 1) (Equity 2) (3 # 10) 5]).
  - repeat constructor.
  - vm_compute. reflexivity.
Defined.

(** Earning dividends records obligations and nothing else: the book of
    positions is the same afterwards. *)
Theorem earn_dividends_keeps_positions
  (pt pt' : PositionTracker.t)
  (dividends : list Dividend) (stock_dividends : list StockDividend) :
  PositionTracker.earn_dividends pt dividends stock_dividends = Ok pt' ->
  PositionTracker.positions pt' = PositionTracker.positions pt.
Proof.
  unfold PositionTracker.earn_dividends.
  destruct (PositionTracker.earn_cash pt dividends) as [pt1|e] eqn:E;
    cbv beta iota delta [bind]; [|discriminate].
  intros H. destruct (earn_stock_frame _ _ _ H) as [-> _].
  destruct (earn_cash_frame _ _ _ E) as [-> _]. reflexivity.
Qed.

Lemma earn_dividends_keeps_positions_witness :
  PositionTracker.positions dividend_book
  = PositionTracker.positions
      (PositionTracker.execute_transaction (PositionTracker.init daily)
         (mkTransaction (Equity 1) 10 1 (10 # 1) None)).
Proof.
  apply (earn_dividends_keeps_positions _ dividend_book
           [mkDividend (Equity 1) (1 # 2) 5]
           [mkStockDividend (Equity 1) (Equity 2) (3 # 10) 5]).
  vm_compute. reflexivity.
Defined.

Lemma earn_cash_not_held (dividends : list Dividend) :
  forall pt,
    Exists (fun dv => held pt (div_asset dv) = false) dividends ->
    PositionTracker.earn_cash pt dividends = Raise AttributeError.
Proof.
  induction dividends as [|dv rest IH]; intros pt H; [inversion H|].
  simpl. unfold held_position.
  destruct (PyDict.get asset_eqb (PositionTracker.positions pt) (div_asset dv))
    as [position|] eqn:E; cbv beta iota delta [bind]; [|reflexivity].
  apply IH. inversion H as [? ? Hhead|? ? Htail]; subst.
  - unfold held, PyDict.contains in Hhead. rewrite E in Hhead. discriminate.
  - revert Htail. apply Exists_impl. intros x Hx. exact Hx.
Qed.

(** A cash dividend for an instrument that is not held makes
    [earn_dividends] fail, wherever it stands in the list: the lookup finds
    no position and [earn_dividend] is called on [None], an
    [AttributeError] (the spec's PositionNotFound). *)
Theorem earn_dividends_not_held
  (pt : PositionTracker.t)
  (dividends : list Dividend) (stock_dividends : list StockDividend) :
  Exists (fun dv => held pt (div_asset dv) = false) dividends ->
  PositionTracker.earn_dividends pt dividends stock_dividends = Raise AttributeError.
Proof.
  intros H. unfold PositionTracker.earn_dividends.
  rewrite (earn_cash_not_held dividends pt H). reflexivity.
Qed.

Lemma earn_dividends_not_held_witness :
  PositionTracker.earn_dividends two_longs
    [mkDividend (Equity 1) (1 # 2) 5; mkDividend (Equity 3) (1 # 4) 5] []
  = Raise AttributeError.
Proof.
  apply earn_dividends_not_held.
  apply Exists_cons_tl. apply Exists_cons_hd. reflexivity.
Defined.

Lemma with_positions_same (pt : PositionTracker.t) :
  PositionTracker.with_positions pt (PositionTracker.positions pt) = pt.
Proof. destruct pt; reflexivity. Qed.

(** On a date with no obligation of either kind [pay_dividends] pays nothing
    and leaves the tracker exactly as it was. *)
Theorem pay_dividends_nothing_due (pt : PositionTracker.t) (d : Z) :
  PyDict.get Z.eqb (PositionTracker.unpaid_dividends pt) d = None ->
  PyDict.get Z.eqb (PositionTracker.unpaid_stock_dividends pt) d = None ->
  PositionTracker.pay_dividends pt d = (0, pt).
Proof.
  intros Hc Hs. unfold PositionTracker.pay_dividends. rewrite Hc, Hs.
  simpl. rewrite with_positions_same. reflexivity.
Qed.

Lemma pay_dividends_nothing_due_witness :
  PositionTracker.pay_dividends dividend_book 6 = (0, dividend_book).
Proof. apply pay_dividends_nothing_due; reflexivity. Defined.

Lemma pay_dividends_twice_cash_witness :
  fst (PositionTracker.pay_dividends
         (snd (PositionTracker.pay_dividends dividend_book 5)) 5) = 0.
Proof. apply pay_dividends_twice_cash. reflexivity. Defined.

Lemma credit_stock_amount (a : Asset) (ps : list (Asset * Position))
  (sp : StockPayment) :
  match PyDict.get asset_eqb (PositionTracker.credit_stock ps sp) a with
  | Some p => pos_amount p
  | None => 0%Z
  end
  = (match PyDict.get asset_eqb ps a with
     | Some p => pos_amount p
     | None => 0%Z
     end
     + if asset_eqb (sp_payment_asset sp) a then sp_share_count sp else 0)%Z.
Proof.
  unfold PositionTracker.credit_stock, PositionTracker.position_or_new.
  destruct (asset_eqb (sp_payment_asset sp) a) eqn:E.
  - assert (Hsid : asset_sid (sp_payment_asset sp) = asset_sid a)
      by (apply Z.eqb_eq; exact E).
    rewrite (get_set asset_eqb _ _ (asset_same_key _ _ Hsid) E).
    rewrite (get_same_key asset_eqb _ _ (asset_same_key _ _ Hsid)).
    destruct (PyDict.get asset_eqb ps a); reflexivity.
  - assert (Hsid : asset_sid (sp_payment_asset sp) <> asset_sid a)
      by (apply Z.eqb_neq; exact E).
    destruct (asset_other_key _ _ Hsid) as [Ho Hn].
    rewrite (get_set_other asset_eqb _ _ Ho Hn). lia.
Qed.

Lemma credit_all_amount (a : Asset) (stock_payments : list StockPayment) :
  forall ps,
    match PyDict.get asset_eqb
            (fold_left PositionTracker.credit_stock stock_payments ps) a with
    | Some p => pos_amount p
    | None => 0%Z
    end
    = (match PyDict.get asset_eqb ps a with
       | Some p => pos_amount p
       | None => 0%Z
       end + shares_paid a stock_payments)%Z.
Proof.
  induction stock_payments as [|sp rest IH]; intros ps; simpl; [lia|].
  rewrite IH, credit_stock_amount. lia.
Qed.

(** Paying the stock dividends of a date credits every instrument with the
    shares the obligations of that date name for it, creating the position
    where there was none; the other holdings do not move. *)
Theorem pay_dividends_credits_shares
  (pt : PositionTracker.t) (d : Z) (a : Asset) :
  held_amount (snd (PositionTracker.pay_dividends pt d)) a
  = (held_amount pt a
     + shares_paid a
         (match PyDict.get Z.eqb (PositionTracker.unpaid_stock_dividends pt) d with
          | Some stock_payments => stock_payments
          | None => []
          end))%Z.
Proof.
  unfold held_amount, PositionTracker.pay_dividends.
  destruct (PyDict.get Z.eqb (PositionTracker.unpaid_dividends pt) d);
    cbn [snd PositionTracker.positions PositionTracker.with_positions
         PositionTracker.with_unpaid_dividends
         PositionTracker.unpaid_stock_dividends];
    apply credit_all_amount.
Qed.

(** ** Ordinary instruments *)

Lemma equity_transaction_run (l : Ledger.t) (txn : Transaction) (sid : Z) :
  txn_asset txn = Equity sid ->
  exists l',
    Ledger.process_transaction l txn = Ok l'
    /\ Ledger.position_tracker l'
       = PositionTracker.execute_transaction (Ledger.position_tracker l) txn
    /\ cash_flow (Ledger.portfolio_ l')
       = cash_flow (Ledger.portfolio_ l)
         + (-1 # 1) * txn_price txn * inject_Z (txn_amount txn)
    /\ cash (Ledger.portfolio_ l') = cash (Ledger.portfolio_ l)
    /\ Ledger.payout_last_sale_prices l' = Ledger.payout_last_sale_prices l
    /\ Ledger.dirty_portfolio l' = true
    /\ Ledger.dirty_account l' = true.
Proof.
  intros Ha. unfold Ledger.process_transaction, Ledger._calculate_execution_cash_flow.
  rewrite Ha. cbv beta iota delta [bind].
  eexists. split; [reflexivity|]. conjuncts; reflexivity.
Qed.

(** A transaction in an ordinary instrument always goes through: the book
    executes it, cash flow moves by minus price times quantity, both
    snapshots are marked dirty, and the reference prices and the cash of the
    snapshot are left alone. *)
Theorem process_transaction_equity (l : Ledger.t) (txn : Transaction) (sid : Z) :
  txn_asset txn = Equity sid ->
  exists l',
    Ledger.process_transaction l txn = Ok l'
    /\ Ledger.position_tracker l'
       = PositionTracker.execute_transaction (Ledger.position_tracker l) txn
    /\ cash_flow (Ledger.portfolio_ l')
       = cash_flow (Ledger.portfolio_ l)
         + (-1 # 1) * txn_price txn * inject_Z (txn_amount txn)
    /\ cash (Ledger.portfolio_ l') = cash (Ledger.portfolio_ l)
    /\ Ledger.payout_last_sale_prices l' = Ledger.payout_last_sale_prices l
    /\ Ledger.dirty_portfolio l' = true
    /\ Ledger.dirty_account l' = true.
Proof. apply equity_transaction_run. Qed.

Lemma process_transaction_equity_witness :
  exists l',
    Ledger.process_transaction short_ledger
      (mkTransaction (Equity 1) 4 2 (9 # 1) None) = Ok l'
    /\ Ledger.position_tracker l'
       = PositionTracker.execute_transaction (Ledger.position_tracker short_ledger)
           (mkTransaction (Equity 1) 4 2 (9 # 1) None)
    /\ cash_flow (Ledger.portfolio_ l')
       = cash_flow (Ledger.portfolio_ short_ledger)
         + (-1 # 1) * (9 # 1) * inject_Z 4
    /\ cash (Ledger.portfolio_ l') = cash (Ledger.portfolio_ short_ledger)
    /\ Ledger.payout_last_sale_prices l'
       = Ledger.payout_last_sale_prices short_ledger
    /\ Ledger.dirty_portfolio l' = true
    /\ Ledger.dirty_account l' = true.
Proof.
  apply (process_transaction_equity short_ledger
           (mkTransaction (Equity 1) 4 2 (9 # 1) None) 1).
  reflexivity.
Defined.

(** The first transaction in a leveraged instrument always goes through: it
    records its price as the reference price and moves neither cash nor cash
    flow. *)
Theorem process_transaction_first_future
  (l : Ledger.t) (txn : Transaction) (sid : Z) (multiplier : Q) :
  txn_asset txn = Future sid multiplier ->
  PyDict.get asset_eqb (Ledger.payout_last_sale_prices l) (txn_asset txn) = None ->
  exists l',
    Ledger.process_transaction l txn = Ok l'
    /\ PyDict.get asset_eqb (Ledger.payout_last_sale_prices l') (txn_asset txn)
       = Some (txn_price txn)
    /\ cash (Ledger.portfolio_ l') = cash (Ledger.portfolio_ l)
    /\ cash_flow (Ledger.portfolio_ l') == cash_flow (Ledger.portfolio_ l)
    /\ Ledger.position_tracker l'
       = PositionTracker.execute_transaction (Ledger.position_tracker l) txn.
Proof.
  intros Ha Hnone. unfold Ledger.process_transaction,
    Ledger._calculate_execution_cash_flow.
  rewrite Ha in *.
  cbn [Ledger.payout_last_sale_prices Ledger.set_dirty_portfolio
       Ledger.with_position_tracker Ledger.with_portfolio].
  rewrite Hnone. cbv beta iota delta [bind].
  eexists. split; [reflexivity|].
  cbn [Ledger.payout_last_sale_prices Ledger.with_payout_last_sale_prices
       Ledger.with_processed_transactions Ledger.portfolio_ Ledger.position_tracker
       Ledger.with_portfolio Ledger.set_dirty_portfolio Ledger.with_position_tracker
       cash cash_flow with_cash_flow].
  conjuncts; try reflexivity.
  - apply (get_set asset_eqb _ _ (fun x => eq_refl) (asset_eqb_refl _)).
  - ring.
Qed.

Lemma process_transaction_first_future_witness :
  exists l',
    Ledger.process_transaction futures_start open_two_at_50 = Ok l'
    /\ PyDict.get asset_eqb (Ledger.payout_last_sale_prices l') contract
       = Some (50 # 1)
    /\ cash (Ledger.portfolio_ l') = cash (Ledger.portfolio_ futures_start)
    /\ cash_flow (Ledger.portfolio_ l') == cash_flow (Ledger.portfolio_ futures_start)
    /\ Ledger.position_tracker l'
       = PositionTracker.execute_transaction (Ledger.position_tracker futures_start)
           open_two_at_50.
Proof.
  apply (process_transaction_first_future futures_start open_two_at_50 7 (5 # 1));
    reflexivity.
Defined.

(** ** Closing a position *)

(** [close_position] on an ordinary instrument that is held sells (or buys
    back) exactly the quantity held, at the spot price or, when that is
    undefined, at the last sale price: the instrument is gone from the book
    and cash flow has grown by price times the quantity closed. *)
Theorem close_position_closes
  (l : Ledger.t) (sid dt : Z) (data_portal : DataPortal) (p : Position) :
  let pt := Ledger.position_tracker l in
  let price :=
    match get_spot_value data_portal (Equity sid) dt
            (PositionTracker.data_frequency pt) with
    | Some price => price
    | None => pos_last_sale_price p
    end in
  keyed_once asset_eqb (PositionTracker.positions pt) (Equity sid) ->
  PyDict.get asset_eqb (PositionTracker.positions pt) (Equity sid) = Some p ->
  pos_amount p <> 0%Z ->
  exists l',
    Ledger.close_position l (Equity sid) dt data_portal = Ok l'
    /\ held (Ledger.position_tracker l') (Equity sid) = false
    /\ cash_flow (Ledger.portfolio_ l')
       == cash_flow (Ledger.portfolio_ l) + price * inject_Z (pos_amount p).
Proof.
  intros pt price Honce Hget Hnz.
  unfold Ledger.close_position,
    PositionTracker.maybe_create_close_position_transaction.
  fold pt. rewrite Hget. fold price.
  set (txn := {| txn_asset := Equity sid;
                 txn_amount := (-1 * pos_amount p)%Z;
                 txn_dt := dt;
                 txn_price := price;
                 txn_order_id := None |}).
  destruct (equity_transaction_run l txn sid eq_refl)
    as (l' & Hrun & Hpt & Hflow & _).
  exists l'. split; [exact Hrun|]. split.
  - assert (Hok : book_ok pt (Equity sid)).
    { split; [exact Honce|]. intros q Hq. rewrite Hget in Hq.
      injection Hq as <-. exact Hnz. }
    destruct (execute_transaction_step pt (Equity sid) txn eq_refl Hok)
      as [Hok' Hamt].
    rewrite Hpt. fold pt. apply (book_ok_held_iff _ _ Hok').
    rewrite Hamt. unfold held_amount. fold pt. rewrite Hget.
    unfold txn. cbn [txn_amount]. lia.
  - rewrite Hflow. unfold txn. cbn [txn_price txn_amount].
    rewrite inject_Z_mult. change (inject_Z (-1)) with (-1 # 1). ring.
Qed.

Lemma close_position_closes_witness :
  exists l',
    Ledger.close_position short_ledger (Equity 1) 2 (flat_prices (11 # 1)) = Ok l'
    /\ held (Ledger.position_tracker l') (Equity 1) = false
    /\ cash_flow (Ledger.portfolio_ l')
       == cash_flow (Ledger.portfolio_ short_ledger) + (11 # 1) * inject_Z (-10).
Proof.
  apply (close_position_closes short_ledger 1 2 (flat_prices (11 # 1))
           (PositionTracker.position_or_new
              (PositionTracker.positions (Ledger.position_tracker short_ledger))
              (Equity 1))).
  - reflexivity.
  - vm_compute. reflexivity.
  - discriminate.
Defined.

(** [close_position] on an instrument that is not held does nothing at
    all. *)
Theorem close_position_not_held
  (l : Ledger.t) (asset : Asset) (dt : Z) (data_portal : DataPortal) :
  held (Ledger.position_tracker l) asset = false ->
  Ledger.close_position l asset dt data_portal = Ok l.
Proof.
  unfold held, PyDict.contains, Ledger.close_position,
    PositionTracker.maybe_create_close_position_transaction.
  destruct (PyDict.get asset_eqb _ asset); [discriminate|reflexivity].
Qed.

Lemma close_position_not_held_witness :
  Ledger.close_position short_ledger (Equity 5) 2 (flat_prices (11 # 1))
  = Ok short_ledger.
Proof. apply close_position_not_held. reflexivity. Defined.

(** ** Price synchronisation *)


Lemma map_id_ext {A : Type} (f : A -> A) (xs : list A) :
  (forall x, f x = x) -> map f xs = xs.
Proof.
  intros H. induction xs as [|x r IH]; simpl; [reflexivity|].
  rewrite H, IH. reflexivity.
Qed.

(** When the price source has no price for any held instrument the book is
    the same after the synchronisation: every last sale price is kept. *)
Theorem sync_last_sale_prices_undefined
  (pt : PositionTracker.t) (dt : Z) (data_portal : DataPortal) :
  (forall asset,
     get_spot_value data_portal asset dt (PositionTracker.data_frequency pt) = None) ->
  PositionTracker.positions
    (PositionTracker.sync_last_sale_prices pt dt data_portal false)
  = PositionTracker.positions pt.
Proof.
  intros H. unfold PositionTracker.sync_last_sale_prices.
  cbn [PositionTracker.positions PositionTracker.with_positions
       PositionTracker.with_dirty_stats PositionTracker.data_frequency negb].
  apply map_id_ext. intros [asset position]. rewrite H. reflexivity.
Qed.

Lemma sync_last_sale_prices_undefined_witness :
  PositionTracker.positions
    (PositionTracker.sync_last_sale_prices two_longs 3 no_prices false)
  = PositionTracker.positions two_longs.
Proof. apply sync_last_sale_prices_undefined. reflexivity. Defined.

(** ** Invariants of the statistics *)

Lemma Qlt_bool_iff (x y : Q) : Qlt_bool x y = true <-> x < y.
Proof.
  unfold Qlt_bool. rewrite negb_true_iff. split.
  - intros H. apply Qnot_le_lt. intros Hle. apply Qle_bool_iff in Hle. congruence.
  - intros H. destruct (Qle_bool y x) eqn:E; [|reflexivity].
    apply Qle_bool_iff in E. exfalso. exact (Qlt_not_le _ _ H E).
Qed.

Lemma Qlt_bool_both_false (x : Q) :
  Qlt_bool 0 x = false -> Qlt_bool x 0 = false -> x == 0.
Proof.
  unfold Qlt_bool. rewrite !negb_false_iff, !Qle_bool_iff.
  intros H1 H2. apply Qle_antisym; assumption.
Qed.

(** A position with no exposure has no value. *)
Lemma value_of_no_exposure (position : Position) :
  PositionTracker.position_exposure position == 0 ->
  PositionTracker.position_value position == 0.
Proof.
  unfold PositionTracker.position_exposure, PositionTracker.position_value.
  destruct (pos_asset position); intros H; [exact H|reflexivity].
Qed.

Lemma stats_step_net_value (acc : PositionTracker.totals) (position : Position) :
  PositionTracker.t_net_value acc
  == PositionTracker.t_long_value acc + PositionTracker.t_short_value acc ->
  PositionTracker.t_net_value (PositionTracker.stats_step acc position)
  == PositionTracker.t_long_value (PositionTracker.stats_step acc position)
     + PositionTracker.t_short_value (PositionTracker.stats_step acc position).
Proof.
  intros H. unfold PositionTracker.stats_step.
  destruct (Qlt_bool 0 (PositionTracker.position_exposure position)) eqn:E1;
    [|destruct (Qlt_bool (PositionTracker.position_exposure position) 0) eqn:E2];
    cbn [PositionTracker.t_net_value PositionTracker.t_long_value
         PositionTracker.t_short_value]; rewrite H.
  - ring.
  - ring.
  - rewrite (value_of_no_exposure _ (Qlt_bool_both_false _ E1 E2)). ring.
Qed.

Lemma fold_stats_net_value (positions : list Position) :
  forall acc,
    PositionTracker.t_net_value acc
    == PositionTracker.t_long_value acc + PositionTracker.t_short_value acc ->
    PositionTracker.t_net_value (fold_left PositionTracker.stats_step positions acc)
    == PositionTracker.t_long_value (fold_left PositionTracker.stats_step positions acc)
       + PositionTracker.t_short_value
           (fold_left PositionTracker.stats_step positions acc).
Proof.
  induction positions as [|p rest IH]; intros acc H; [exact H|].
  simpl. apply IH. apply stats_step_net_value. exact H.
Qed.

(** In the statistics of any book the net value is the long value plus the
    short value: the positions left out of both, those with no exposure,
    have no value either. *)
Theorem stats_net_value_is_long_plus_short (ps : list (Asset * Position)) :
  net_value (PositionTracker.compute_stats ps)
  == long_value (PositionTracker.compute_stats ps)
     + short_value (PositionTracker.compute_stats ps).
Proof.
  unfold PositionTracker.compute_stats. cbn [net_value long_value short_value].
  apply fold_stats_net_value. reflexivity.
Qed.

Lemma fold_stats_short_exposure (positions : list Position) :
  forall acc total,
    PositionTracker.t_short_exposure acc == total ->
    PositionTracker.t_short_exposure
      (fold_left PositionTracker.stats_step positions acc)
    == fold_left
         (fun total position =>
            if Qlt_bool (PositionTracker.position_exposure position) 0
            then total + PositionTracker.position_exposure position
            else total)
         positions total.
Proof.
  induction positions as [|p rest IH]; intros acc total H; [exact H|].
  simpl. apply IH. unfold PositionTracker.stats_step.
  destruct (Qlt_bool 0 (PositionTracker.position_exposure p)) eqn:E1.
  - assert (E2 : Qlt_bool (PositionTracker.position_exposure p) 0 = false).
    { apply Qlt_bool_iff in E1. unfold Qlt_bool. apply negb_false_iff.
      apply Qle_bool_iff. apply Qlt_le_weak. exact E1. }
    rewrite E2. exact H.
  - destruct (Qlt_bool (PositionTracker.position_exposure p) 0);
      cbn [PositionTracker.t_short_exposure]; [rewrite H; reflexivity|exact H].
Qed.

(** The short exposure of the statistics is the sum of the exposures of all
    positions with negative exposure, leveraged ones scaled by their
    multiplier. *)
Theorem stats_short_exposure_is_sum (ps : list (Asset * Position)) :
  short_exposure (PositionTracker.compute_stats ps) == sum_short_exposure ps.
Proof.
  unfold PositionTracker.compute_stats, sum_short_exposure.
  cbn [short_exposure]. apply fold_stats_short_exposure. reflexivity.
Qed.

Lemma fold_stats_futures (positions : list Position) :
  forall acc,
    Forall (fun p => is_future (pos_asset p) = true) positions ->
    PositionTracker.t_net_value acc == 0 ->
    PositionTracker.t_long_value acc == 0 ->
    PositionTracker.t_short_value acc == 0 ->
    PositionTracker.t_net_value (fold_left PositionTracker.stats_step positions acc) == 0
    /\ PositionTracker.t_long_value
         (fold_left PositionTracker.stats_step positions acc) == 0
    /\ PositionTracker.t_short_value
         (fold_left PositionTracker.stats_step positions acc) == 0.
Proof.
  induction positions as [|p rest IH]; intros acc Hall Hn Hl Hs;
    [conjuncts; assumption|].
  inversion Hall as [|? ? Hp Hrest]; subst. simpl.
  assert (Hv : PositionTracker.position_value p = 0).
  { unfold PositionTracker.position_value.
    destruct (pos_asset p); [discriminate|reflexivity]. }
  apply IH; [exact Hrest| | |]; unfold PositionTracker.stats_step; rewrite Hv;
    destruct (Qlt_bool 0 (PositionTracker.position_exposure p));
    try destruct (Qlt_bool (PositionTracker.position_exposure p) 0);
    cbn [PositionTracker.t_net_value PositionTracker.t_long_value
         PositionTracker.t_short_value];
    try rewrite Hn; try rewrite Hl; try rewrite Hs; try ring; try reflexivity.
Qed.

(** A book of leveraged instruments only has no value, long, short, net or
    gross, whatever its exposure. *)
Theorem stats_futures_have_no_value (ps : list (Asset * Position)) :
  Forall (fun p => is_future (pos_asset p) = true) (PyDict.values ps) ->
  net_value (PositionTracker.compute_stats ps) == 0
  /\ long_value (PositionTracker.compute_stats ps) == 0
  /\ short_value (PositionTracker.compute_stats ps) == 0
  /\ gross_value (PositionTracker.compute_stats ps) == 0.
Proof.
  intros H. unfold PositionTracker.compute_stats.
  cbn [net_value long_value short_value gross_value].
  destruct (fold_stats_futures (PyDict.values ps) PositionTracker.totals0 H)
    as (Hn & Hl & Hs); try reflexivity.
  conjuncts; try assumption. rewrite Hl, Hs. ring.
Qed.

Lemma stats_futures_have_no_value_witness :
  net_value
    (PositionTracker.compute_stats
       (PositionTracker.positions (Ledger.position_tracker futures_added))) == 0
  /\ long_value
       (PositionTracker.compute_stats
          (PositionTracker.positions (Ledger.position_tracker futures_added))) == 0
  /\ short_value
       (PositionTracker.compute_stats
          (PositionTracker.positions (Ledger.position_tracker futures_added))) == 0
  /\ gross_value
       (PositionTracker.compute_stats
          (PositionTracker.positions (Ledger.position_tracker futures_added))) == 0.
Proof.
  apply stats_futures_have_no_value. vm_compute. repeat constructor.
Defined.

(** ** The journals *)

Lemma journal_after_transaction (l l' : Ledger.t) (txn : Transaction) :
  Ledger.process_transaction l txn = Ok l' ->
  Ledger.processed_transactions l'
  = Ledger.journal_append (Ledger.processed_transactions l) txn.
Proof.
  unfold Ledger.process_transaction.
  destruct (txn_asset txn) as [sid|sid multiplier]; cbv beta iota delta [bind].
  - intros H. injection H as <-. reflexivity.
  - destruct (PyDict.get asset_eqb _ _) as [old_price|].
    + destruct (held_position _ _) as [position|e];
        cbv beta iota delta [bind]; [|discriminate].
      destruct (_ =? 0)%Z; intros H; injection H as <-; reflexivity.
    + intros H. injection H as <-. reflexivity.
Qed.

Lemma length_concat_set {A : Type} (d : list (Z * list A)) (k : Z) (xs : list A) (x : A) :
  match PyDict.get Z.eqb d k with Some ys => ys | None => [] end = xs ->
  List.length (List.concat (PyDict.values (PyDict.set Z.eqb d k (xs ++ [x]))))
  = S (List.length (List.concat (PyDict.values d))).
Proof.
  revert xs. unfold PyDict.values.
  induction d as [|[k' ys] r IH]; intros xs; simpl.
  - intros <-. reflexivity.
  - destruct (Z.eqb k' k); simpl.
    + intros <-. rewrite !length_app. simpl. lia.
    + intros H. rewrite !length_app, (IH _ H). lia.
Qed.

(** A processed transaction is journalled: it is the last entry of the
    bucket of its timestamp, after what the bucket held, and the whole
    history is one entry longer. *)
Theorem process_transaction_journal (l l' : Ledger.t) (txn : Transaction) :
  Ledger.process_transaction l txn = Ok l' ->
  Ledger.transactions l' (Some (txn_dt txn))
  = Ok (match PyDict.get Z.eqb (Ledger.processed_transactions l) (txn_dt txn) with
        | Some by_day => by_day
        | None => []
        end ++ [txn])
  /\ exists before after,
       Ledger.transactions l None = Ok before
       /\ Ledger.transactions l' None = Ok after
       /\ List.length after = S (List.length before).
Proof.
  intros H. unfold Ledger.transactions, PyDict.getitem.
  rewrite (journal_after_transaction _ _ _ H).
  unfold Ledger.journal_append. split.
  - destruct (PyDict.get Z.eqb (Ledger.processed_transactions l) (txn_dt txn));
      rewrite (get_set Z.eqb _ _ (fun x => eq_refl) (Z.eqb_refl _)); reflexivity.
  - eexists. eexists. split; [reflexivity|]. split; [reflexivity|].
    destruct (PyDict.get Z.eqb (Ledger.processed_transactions l) (txn_dt txn))
      as [by_day|] eqn:E.
    + apply length_concat_set. rewrite E. reflexivity.
    + apply (length_concat_set _ _ []). rewrite E. reflexivity.
Qed.

Lemma process_transaction_journal_witness :
  Ledger.transactions futures_added (Some 2%Z)
  = Ok (match PyDict.get Z.eqb (Ledger.processed_transactions futures_opened) 2%Z with
        | Some by_day => by_day
        | None => []
        end ++ [add_one_at_55])
  /\ exists before after,
       Ledger.transactions futures_opened None = Ok before
       /\ Ledger.transactions futures_added None = Ok after
       /\ List.length after = S (List.length before).
Proof.
  apply (process_transaction_journal futures_opened futures_added add_one_at_55).
  vm_compute. reflexivity.
Defined.

Lemma get_app {V : Type} (d1 d2 : list (string * V)) (k : string) :
  PyDict.get String.eqb (d1 ++ d2) k
  = match PyDict.get String.eqb d1 k with
    | Some v => Some v
    | None => PyDict.get String.eqb d2 k
    end.
Proof.
  induction d1 as [|[k' v] r IH]; simpl; [reflexivity|].
  destruct (String.eqb k' k); [reflexivity|exact IH].
Qed.

Lemma string_same_key (k : string) : forall x, String.eqb x k = String.eqb x k.
Proof. reflexivity. Qed.

Lemma get_moved_last (d : list (string * Order)) (k : string) (v : Order) :
  keyed_once String.eqb d k ->
  PyDict.get String.eqb
    (PyDict.remove String.eqb (PyDict.set String.eqb d k v) k ++ [(k, v)]) k
  = Some v.
Proof.
  unfold keyed_once. intros H.
  rewrite (remove_set String.eqb k k (string_same_key k) (String.eqb_refl k)).
  rewrite get_app, H. simpl. rewrite String.eqb_refl. reflexivity.
Qed.

(** [process_order] never fails, and an order it has recorded is found
    again: under its id in the per-id journal and in the bucket of its
    timestamp, the latest record in both. *)
Theorem process_order_records (l : Ledger.t) (order : Order) :
  keyed_once String.eqb (Ledger.orders_by_id l) (order_id order) ->
  (forall dt_orders,
     PyDict.get Z.eqb (Ledger.orders_by_modified l) (order_dt order) = Some dt_orders ->
     keyed_once String.eqb dt_orders (order_id order)) ->
  exists l' bucket,
    Ledger.process_order l order = Ok l'
    /\ PyDict.get String.eqb (Ledger.orders_by_id l') (order_id order) = Some order
    /\ Ledger.orders_at l' (order_dt order) = Ok bucket
    /\ PyDict.get String.eqb bucket (order_id order) = Some order.
Proof.
  intros Hid Hbucket. unfold Ledger.process_order, Ledger.orders_at, PyDict.getitem.
  destruct (PyDict.get Z.eqb (Ledger.orders_by_modified l) (order_dt order))
    as [dt_orders|] eqn:E.
  - unfold PyDict.move_to_end. rewrite !entry_set. cbv beta iota delta [bind].
    eexists. eexists. split; [reflexivity|].
    cbn [Ledger.orders_by_id Ledger.orders_by_modified Ledger.with_orders].
    rewrite (get_set Z.eqb _ _ (fun x => eq_refl) (Z.eqb_refl _)).
    split; [apply get_moved_last; exact Hid|].
    split; [reflexivity|].
    apply get_moved_last. exact (Hbucket _ eq_refl).
  - eexists. eexists. split; [reflexivity|].
    cbn [Ledger.orders_by_id Ledger.orders_by_modified Ledger.with_orders].
    rewrite (get_set Z.eqb _ _ (fun x => eq_refl) (Z.eqb_refl _)).
    split; [|split; [reflexivity|]].
    + apply (get_set String.eqb _ _ (string_same_key _) (String.eqb_refl _)).
    + simpl. rewrite String.eqb_refl. reflexivity.
Qed.

Lemma process_order_records_witness :
  exists l' bucket,
    Ledger.process_order orders_placed order_a_filled = Ok l'
    /\ PyDict.get String.eqb (Ledger.orders_by_id l') "a"%string = Some order_a_filled
    /\ Ledger.orders_at l' 2 = Ok bucket
    /\ PyDict.get String.eqb bucket "a"%string = Some order_a_filled.
Proof.
  apply (process_order_records orders_placed order_a_filled).
  - reflexivity.
  - intros dt_orders H. vm_compute in H. discriminate.
Defined.

Lemma process_order_known_timestamp_witness :
  exists l' bucket,
    Ledger.process_order orders_placed (mkOrder "a" 1 (Equity 1) 10 10) = Ok l'
    /\ last_key (Ledger.orders_by_id l') = Some "a"%string
    /\ PyDict.get Z.eqb (Ledger.orders_by_modified l') 1%Z = Some bucket
    /\ last_key bucket = Some "a"%string.
Proof.
  apply (process_order_known_timestamp orders_placed
           (mkOrder "a" 1 (Equity 1) 10 10)
           [("a"%string, order_a); ("b"%string, order_b)]).
  vm_compute. reflexivity.
Defined.

Lemma set_absent {V : Type} (d : list (string * V)) (k : string) (v : V) :
  PyDict.get String.eqb d k = None ->
  PyDict.set String.eqb d k v = d ++ [(k, v)].
Proof.
  induction d as [|[k' w] r IH]; simpl; [reflexivity|].
  destruct (String.eqb k' k); [discriminate|].
  intros H. rewrite (IH H). reflexivity.
Qed.

Lemma entry_get {V : Type} (d : list (string * V)) (k : string) :
  PyDict.entry String.eqb d k
  = option_map (fun v => (k, v)) (PyDict.get String.eqb d k).
Proof.
  induction d as [|[k' w] r IH]; simpl; [reflexivity|].
  destruct (String.eqb k' k) eqn:E; [|exact IH].
  apply String.eqb_eq in E. subst. reflexivity.
Qed.

Lemma get_none_not_in {V : Type} (d : list (string * V)) (k : string) :
  PyDict.get String.eqb d k = None -> ~ In k (PyDict.keys d).
Proof.
  induction d as [|[k' w] r IH]; simpl; [tauto|].
  destruct (String.eqb k' k) eqn:E; [discriminate|].
  intros H [Hk|Hin]; [subst; rewrite String.eqb_refl in E; discriminate|].
  exact (IH H Hin).
Qed.

Lemma not_in_get_none {V : Type} (d : list (string * V)) (k : string) :
  ~ In k (PyDict.keys d) -> PyDict.get String.eqb d k = None.
Proof.
  induction d as [|[k' w] r IH]; simpl; [reflexivity|].
  intros H. destruct (String.eqb k' k) eqn:E.
  - apply String.eqb_eq in E. tauto.
  - apply IH. tauto.
Qed.

Lemma refill {V : Type} (items : list (string * V)) :
  forall acc,
    NoDup (PyDict.keys items) ->
    (forall k, In k (PyDict.keys items) -> ~ In k (PyDict.keys acc)) ->
    fold_left (fun d kv => PyDict.set String.eqb d (fst kv) (snd kv)) items acc
    = acc ++ items.
Proof.
  induction items as [|[k v] rest IH]; intros acc Hnd Hdis; simpl.
  - rewrite app_nil_r. reflexivity.
  - inversion Hnd as [|? ? Hk Hrest]; subst.
    rewrite set_absent by (apply not_in_get_none; apply Hdis; left; reflexivity).
    rewrite IH; [rewrite <- app_assoc; reflexivity|exact Hrest|].
    intros k' Hin. unfold PyDict.keys. rewrite map_app, in_app_iff.
    intros [Hacc|[Heq|[]]].
    + exact (Hdis k' (or_intror Hin) Hacc).
    + simpl in Heq. subst. exact (Hk Hin).
Qed.

Lemma keys_remove_subset {V : Type} (d : list (string * V)) (k x : string) :
  In x (PyDict.keys (PyDict.remove String.eqb d k)) -> In x (PyDict.keys d).
Proof.
  induction d as [|[k' w] r IH]; simpl; [tauto|].
  destruct (String.eqb k' k); simpl; tauto.
Qed.

Lemma nodup_remove {V : Type} (d : list (string * V)) (k : string) :
  NoDup (PyDict.keys d) ->
  NoDup (PyDict.keys (PyDict.remove String.eqb d k))
  /\ ~ In k (PyDict.keys (PyDict.remove String.eqb d k)).
Proof.
  induction d as [|[k' w] r IH]; simpl; intros H.
  - split; [constructor|tauto].
  - inversion H as [|? ? Hk Hr]; subst.
    destruct (String.eqb k' k) eqn:E; simpl.
    + apply String.eqb_eq in E. subst. split; assumption.
    + destruct (IH Hr) as [Hnd Hnot]. split.
      * constructor; [|exact Hnd].
        intros Hin. exact (Hk (keys_remove_subset _ _ _ Hin)).
      * intros [Heq|Hin]; [subst; rewrite String.eqb_refl in E; discriminate|].
        exact (Hnot Hin).
Qed.

(** The Python 2 [move_to_end] moves the entry of [key] to the end, or with
    [last] false to the front, and keeps the other entries in their order;
    moving to the end it agrees with [OrderedDict.move_to_end]; on a key
    that is missing it raises [KeyError]. *)
Theorem move_to_end_py2_moves {V : Type}
  (ordered_dict : list (string * V)) (key : string) :
  NoDup (PyDict.keys ordered_dict) ->
  match PyDict.get String.eqb ordered_dict key with
  | Some v =>
      move_to_end_py2 ordered_dict key true
      = Ok (PyDict.remove String.eqb ordered_dict key ++ [(key, v)])
      /\ move_to_end_py2 ordered_dict key true
         = PyDict.move_to_end String.eqb ordered_dict key
      /\ move_to_end_py2 ordered_dict key false
         = Ok ((key, v) :: PyDict.remove String.eqb ordered_dict key)
  | None =>
      move_to_end_py2 ordered_dict key true = Raise KeyError
      /\ move_to_end_py2 ordered_dict key false = Raise KeyError
      /\ PyDict.move_to_end String.eqb ordered_dict key = Raise KeyError
  end.
Proof.
  intros Hnd. unfold move_to_end_py2, PyDict.move_to_end.
  rewrite entry_get.
  destruct (PyDict.get String.eqb ordered_dict key) as [v|]; simpl;
    [|conjuncts; reflexivity].
  destruct (nodup_remove ordered_dict key Hnd) as [Hnd' Hnot].
  rewrite set_absent by (apply not_in_get_none; exact Hnot).
  conjuncts; try reflexivity.
  rewrite refill; [reflexivity|exact Hnd'|].
  intros k Hin [Heq|[]]. simpl in Heq. subst. exact (Hnot Hin).
Qed.

Lemma move_to_end_py2_moves_witness :
  move_to_end_py2 (Ledger.orders_by_id orders_placed) "a"%string true
  = Ok (PyDict.remove String.eqb (Ledger.orders_by_id orders_placed) "a"%string
        ++ [("a"%string, order_a)])
  /\ move_to_end_py2 (Ledger.orders_by_id orders_placed) "a"%string true
     = PyDict.move_to_end String.eqb (Ledger.orders_by_id orders_placed) "a"%string
  /\ move_to_end_py2 (Ledger.orders_by_id orders_placed) "b"%string false
     = Ok (("b"%string, order_b)
           :: PyDict.remove String.eqb (Ledger.orders_by_id orders_placed) "b"%string).
Proof.
  assert (Hnd : NoDup (PyDict.keys (Ledger.orders_by_id orders_placed))).
  { vm_compute. repeat constructor; simpl; intuition discriminate. }
  pose proof (move_to_end_py2_moves (Ledger.orders_by_id orders_placed)
                "a"%string Hnd) as Ha.
  pose proof (move_to_end_py2_moves (Ledger.orders_by_id orders_placed)
                "b"%string Hnd) as Hb.
  split; [exact (proj1 Ha)|].
  split; [exact (proj1 (proj2 Ha))|exact (proj2 (proj2 Hb))].
Defined.

(** ** Reads, flags and the profit and loss *)

Lemma portfolio_read_fields (l l' : Ledger.t) (p : Portfolio) :
  Ledger.portfolio l = Ok (p, l') ->
  Ledger.dirty_portfolio l' = false
  /\ Ledger.dirty_account l' = Ledger.dirty_account l
  /\ basis l' == basis l
  /\ Ledger.processed_transactions l' = Ledger.processed_transactions l
  /\ Ledger.orders_by_modified l' = Ledger.orders_by_modified l
  /\ Ledger.orders_by_id l' = Ledger.orders_by_id l
  /\ Ledger.account_ l' = Ledger.account_ l
  /\ Ledger.account_overrides l' = Ledger.account_overrides l.
Proof.
  unfold Ledger.portfolio.
  destruct (Ledger.dirty_portfolio l) eqn:Ed; cbv beta iota delta [negb].
  - destruct (PositionTracker.stats (Ledger.position_tracker l)) as [s pt].
    destruct s as [s|]; cbv beta iota delta [bind]; [|discriminate].
    destruct (Ledger._get_payout_total _ _) as [payout|e];
      cbv beta iota delta [bind]; [|discriminate].
    intros H. injection H as _ <-.
    conjuncts; try reflexivity.
    unfold basis. cbn [Ledger.portfolio_ Ledger.set_dirty_portfolio
      Ledger.with_portfolio portfolio_value pnl]. ring.
  - intros H. injection H as _ <-. conjuncts; try reflexivity. exact Ed.
Qed.

(** Reading twice is reading once: after a successful read of the portfolio
    or of the account nothing is dirty for it any more, and the next read
    returns the same value and leaves the ledger as it is. *)
Theorem reads_are_idempotent (l : Ledger.t) :
  (forall p l', Ledger.portfolio l = Ok (p, l') ->
                Ledger.dirty_portfolio l' = false
                /\ Ledger.portfolio l' = Ok (p, l'))
  /\ (forall d l', Ledger.account l = Ok (d, l') ->
                   Ledger.dirty_account l' = false
                   /\ Ledger.account l' = Ok (d, l')).
Proof.
  split.
  - intros p l' H.
    destruct (portfolio_read_fields _ _ _ H) as [Hclean _].
    destruct (portfolio_read_state _ _ _ H) as [Hp _].
    split; [exact Hclean|].
    unfold Ledger.portfolio. rewrite Hclean, Hp. reflexivity.
  - intros d l'. unfold Ledger.account at 1.
    destruct (Ledger.dirty_account l) eqn:Ea.
    + destruct (Ledger.portfolio l) as [[p l1]|e];
        cbv beta iota delta [bind]; [|discriminate].
      destruct (py_div _ _) as [cushion|e]; cbv beta iota delta [bind];
        [|discriminate].
      destruct (Ledger.calculate_period_stats l1) as [[[[nl gl] nlv] l2]|e];
        cbv beta iota delta [bind]; [|discriminate].
      match goal with
      | |- Ok (?fields, _) = _ -> _ => set (account_dict := fields)
      end.
      clearbody account_dict.
      intros H. injection H as <- <-.
      split; [reflexivity|]. unfold Ledger.account.
      cbn [Ledger.dirty_account Ledger.with_account Ledger.account_]. reflexivity.
    + intros H. injection H as <- <-. split; [exact Ea|].
      unfold Ledger.account. rewrite Ea. reflexivity.
Qed.

Lemma reads_are_idempotent_witness :
  Ledger.dirty_portfolio (snd two_step_read1) = false
  /\ Ledger.portfolio (snd two_step_read1)
     = Ok (fst two_step_read1, snd two_step_read1).
Proof.
  apply (proj1 (reads_are_idempotent two_step_mutated1)).
  vm_compute. reflexivity.
Defined.



(** ** The end of a session *)

Lemma end_of_session_run (s s' : LedgerReturns) (session_label : Z) :
  end_of_session s session_label = Ok s' ->
  Ledger.processed_transactions (lr_ledger s') = []
  /\ Ledger.orders_by_modified (lr_ledger s') = []
  /\ Ledger.orders_by_id (lr_ledger s') = []
  /\ previous_total_returns s' = returns (Ledger.portfolio_ (lr_ledger s'))
  /\ exists r,
       daily_returns s'
       = PyDict.set Z.eqb (daily_returns s) session_label (Some r)
       /\ (1 + r) * (1 + previous_total_returns s) == 1 + previous_total_returns s'.
Proof.
  unfold end_of_session.
  destruct (Ledger.portfolio _) as [[p l1]|e] eqn:Er;
    cbv beta iota delta [bind]; [|discriminate].
  destruct (portfolio_read_fields _ _ _ Er) as (_ & _ & _ & Ht & Hm & Hi & _).
  destruct (portfolio_read_state _ _ _ Er) as [Hp _].
  unfold py_div.
  destruct (Qeq_bool (previous_total_returns s + 1) 0) eqn:Ez;
    cbv beta iota delta [bind]; [discriminate|].
  intros H. injection H as <-.
  cbn [lr_ledger daily_returns previous_total_returns].
  rewrite Ht, Hm, Hi, Hp. conjuncts; try reflexivity.
  eexists. split; [reflexivity|].
  assert (Hnz : ~ previous_total_returns s + 1 == 0).
  { intros Hq. apply Qeq_bool_iff in Hq. congruence. }
  field. exact Hnz.
Qed.

(** [end_of_session] empties the transaction journal and both order
    journals and records the session's return [r], which compounds the
    total returns of the previous session end into those of this one:
    [(1 + r) * (1 + previous) = 1 + current]. *)
Theorem end_of_session_records (s s' : LedgerReturns) (session_label : Z) :
  end_of_session s session_label = Ok s' ->
  Ledger.transactions (lr_ledger s') None = Ok []
  /\ Ledger.orders (lr_ledger s') = []
  /\ Ledger.orders_by_modified (lr_ledger s') = []
  /\ previous_total_returns s' = returns (Ledger.portfolio_ (lr_ledger s'))
  /\ exists r,
       PyDict.get Z.eqb (daily_returns s') session_label = Some (Some r)
       /\ (1 + r) * (1 + previous_total_returns s) == 1 + previous_total_returns s'.
Proof.
  intros H.
  destruct (end_of_session_run _ _ _ H) as (Ht & Hm & Hi & Hp & r & Hr & Hc).
  unfold Ledger.transactions, Ledger.orders. rewrite Ht, Hi.
  conjuncts; try reflexivity; try assumption.
  exists r. split; [|exact Hc].
  rewrite Hr. apply (get_set Z.eqb _ _ (fun x => eq_refl) (Z.eqb_refl _)).
Qed.

Lemma end_of_session_records_witness :
  Ledger.transactions (lr_ledger session_one) None = Ok []
  /\ Ledger.orders (lr_ledger session_one) = []
  /\ Ledger.orders_by_modified (lr_ledger session_one) = []
  /\ previous_total_returns session_one
     = returns (Ledger.portfolio_ (lr_ledger session_one))
  /\ exists r,
       PyDict.get Z.eqb (daily_returns session_one) 1%Z = Some (Some r)
       /\ (1 + r) * (1 + previous_total_returns session_start)
          == 1 + previous_total_returns session_one.
Proof.
  apply (end_of_session_records session_start session_one 1).
  vm_compute. reflexivity.
Defined.

(** Daily returns compound to total returns: over two sessions that start
    from total returns 0, whatever happens to the ledger in between, the
    two recorded returns satisfy [(1 + r1) * (1 + r2) = 1 + returns] for
    the returns of the portfolio at the end of the second. *)
Theorem daily_returns_compound
  (s s1 s2 : LedgerReturns) (traded : Ledger.t) (session1 session2 : Z) :
  previous_total_returns s == 0 ->
  session1 <> session2 ->
  end_of_session s session1 = Ok s1 ->
  end_of_session
    (mkLedgerReturns traded (daily_returns s1) (previous_total_returns s1)) session2
  = Ok s2 ->
  exists r1 r2,
    PyDict.get Z.eqb (daily_returns s2) session1 = Some (Some r1)
    /\ PyDict.get Z.eqb (daily_returns s2) session2 = Some (Some r2)
    /\ (1 + r1) * (1 + r2) == 1 + returns (Ledger.portfolio_ (lr_ledger s2)).
Proof.
  intros Hzero Hneq H1 H2.
  destruct (end_of_session_run _ _ _ H1) as (_ & _ & _ & _ & r1 & Hd1 & Hc1).
  destruct (end_of_session_run _ _ _ H2) as (_ & _ & _ & Hp2 & r2 & Hd2 & Hc2).
  cbn [daily_returns previous_total_returns] in Hd2, Hc2.
  exists r1, r2. split; [|split].
  - rewrite Hd2, Hd1.
    rewrite (get_set_other Z.eqb session2 session1).
    + apply (get_set Z.eqb _ _ (fun x => eq_refl) (Z.eqb_refl _)).
    + intros x Hx. apply Z.eqb_eq in Hx. apply Z.eqb_neq. congruence.
    + apply Z.eqb_neq. congruence.
  - rewrite Hd2. apply (get_set Z.eqb _ _ (fun x => eq_refl) (Z.eqb_refl _)).
  - rewrite <- Hp2, <- Hc2, <- Hc1, Hzero. ring.
Qed.

Lemma daily_returns_compound_witness :
  exists r1 r2,
    PyDict.get Z.eqb (daily_returns session_two) 1%Z = Some (Some r1)
    /\ PyDict.get Z.eqb (daily_returns session_two) 2%Z = Some (Some r2)
    /\ (1 + r1) * (1 + r2)
       == 1 + returns (Ledger.portfolio_ (lr_ledger session_two)).
Proof.
  apply (daily_returns_compound session_start session_one session_two
           (lr_ledger session_one_traded) 1 2).
  - reflexivity.
  - discriminate.
  - vm_compute. reflexivity.
  - vm_compute. reflexivity.
Defined.

(** ** What every run of events keeps *)

Lemma execute_transaction_dirty (pt : PositionTracker.t) (txn : Transaction) :
  PositionTracker.dirty_stats (PositionTracker.execute_transaction pt txn) = true.
Proof.
  unfold PositionTracker.execute_transaction.
  match goal with |- context [(?x =? 0)%Z] => destruct (x =? 0)%Z end;
    [|reflexivity].
  match goal with |- context [PyDict.delitem ?e ?d ?k] =>
    destruct (PyDict.delitem e d k) end; reflexivity.
Qed.

Lemma pay_dividends_dirty (pt : PositionTracker.t) (d : Z) :
  PositionTracker.dirty_stats (snd (PositionTracker.pay_dividends pt d))
  = PositionTracker.dirty_stats pt.
Proof.
  unfold PositionTracker.pay_dividends.
  destruct (PyDict.get Z.eqb (PositionTracker.unpaid_dividends pt) d); reflexivity.
Qed.

Lemma earn_cash_dirty (dividends : list Dividend) :
  forall pt pt',
    PositionTracker.earn_cash pt dividends = Ok pt' ->
    PositionTracker.dirty_stats pt' = PositionTracker.dirty_stats pt.
Proof.
  induction dividends as [|dv rest IH]; intros pt pt'; simpl.
  - intros H. injection H as <-. reflexivity.
  - destruct (held_position _ _) as [position|e];
      cbv beta iota delta [bind]; [|discriminate].
    intros H. rewrite (IH _ _ H). reflexivity.
Qed.

Lemma earn_stock_dirty (stock_dividends : list StockDividend) :
  forall pt pt',
    PositionTracker.earn_stock pt stock_dividends = Ok pt' ->
    PositionTracker.dirty_stats pt' = PositionTracker.dirty_stats pt.
Proof.
  induction stock_dividends as [|dv rest IH]; intros pt pt'; simpl.
  - intros H. injection H as <-. reflexivity.
  - destruct (held_position _ _) as [position|e];
      cbv beta iota delta [bind]; [|discriminate].
    intros H. rewrite (IH _ _ H). reflexivity.
Qed.

Lemma earn_dividends_dirty (pt pt' : PositionTracker.t)
  (dividends : list Dividend) (stock_dividends : list StockDividend) :
  PositionTracker.earn_dividends pt dividends stock_dividends = Ok pt' ->
  PositionTracker.dirty_stats pt' = PositionTracker.dirty_stats pt.
Proof.
  unfold PositionTracker.earn_dividends.
  destruct (PositionTracker.earn_cash pt dividends) as [pt1|e] eqn:E;
    cbv beta iota delta [bind]; [|discriminate].
  intros H. rewrite (earn_stock_dirty _ _ _ H). exact (earn_cash_dirty _ _ _ E).
Qed.

Lemma handle_commission_dirty (adjust : Position -> Asset -> Q -> Position)
  (pt : PositionTracker.t) (asset : Asset) (cost : Q) :
  PositionTracker.dirty_stats pt = true ->
  PositionTracker.dirty_stats (PositionTracker.handle_commission adjust pt asset cost)
  = true.
Proof.
  intros H. unfold PositionTracker.handle_commission.
  destruct (PyDict.get asset_eqb _ asset); [reflexivity|exact H].
Qed.

Lemma handle_splits_dirty (handle_split : Position -> Asset -> Q -> Position * Q)
  (splits : list (Asset * Q)) :
  forall (pt : PositionTracker.t) (total : Q),
    PositionTracker.dirty_stats pt = true ->
    PositionTracker.dirty_stats
      (snd (fold_left (PositionTracker.split_step handle_split) splits (total, pt)))
    = true.
Proof.
  induction splits as [|[asset ratio] rest IH]; intros pt total H; [exact H|].
  simpl. destruct (PyDict.get asset_eqb (PositionTracker.positions pt) asset).
  - destruct (handle_split p asset ratio) as [position leftover].
    apply IH. reflexivity.
  - apply IH. exact H.
Qed.

Lemma process_transaction_fields (l l' : Ledger.t) (txn : Transaction) :
  Ledger.process_transaction l txn = Ok l' ->
  Ledger.dirty_portfolio l' = true
  /\ Ledger.dirty_account l' = true
  /\ Ledger.position_tracker l'
     = PositionTracker.execute_transaction (Ledger.position_tracker l) txn
  /\ basis l' = basis l.
Proof.
  unfold Ledger.process_transaction.
  destruct (txn_asset txn) as [sid|sid multiplier]; cbv beta iota delta [bind].
  - intros H. injection H as <-. conjuncts; reflexivity.
  - destruct (PyDict.get asset_eqb _ _) as [old_price|].
    + destruct (held_position _ _) as [position|e];
        cbv beta iota delta [bind]; [|discriminate].
      destruct (_ =? 0)%Z; intros H; injection H as <-; conjuncts; reflexivity.
    + intros H. injection H as <-. conjuncts; reflexivity.
Qed.

Lemma process_order_fields (l l' : Ledger.t) (order : Order) :
  Ledger.process_order l order = Ok l' ->
  Ledger.dirty_portfolio l' = Ledger.dirty_portfolio l
  /\ Ledger.dirty_account l' = Ledger.dirty_account l
  /\ Ledger.position_tracker l' = Ledger.position_tracker l
  /\ basis l' = basis l.
Proof.
  unfold Ledger.process_order.
  destruct (PyDict.get Z.eqb _ _) as [dt_orders|].
  - destruct (PyDict.move_to_end String.eqb _ _) as [d1|e];
      cbv beta iota delta [bind]; [|discriminate].
    destruct (PyDict.move_to_end String.eqb _ _) as [d2|e];
      cbv beta iota delta [bind]; [|discriminate].
    intros H. injection H as <-. conjuncts; reflexivity.
  - intros H. injection H as <-. conjuncts; reflexivity.
Qed.

Lemma process_dividends_fields (l l' : Ledger.t) (d : Z) (reader : AdjustmentReader) :
  Ledger.process_dividends l d reader = Ok l' ->
  Ledger.dirty_portfolio l' = true
  /\ Ledger.dirty_account l' = true
  /\ PositionTracker.dirty_stats (Ledger.position_tracker l')
     = PositionTracker.dirty_stats (Ledger.position_tracker l)
  /\ basis l' = basis l.
Proof.
  unfold Ledger.process_dividends.
  match goal with |- context [bind ?r _] => destruct r as [pt|e] eqn:E end;
    cbv beta iota delta [bind]; [|discriminate].
  assert (Hd : PositionTracker.dirty_stats pt
               = PositionTracker.dirty_stats (Ledger.position_tracker l)).
  { destruct (PyDict.keys _) in E.
    - injection E as <-. reflexivity.
    - exact (earn_dividends_dirty _ _ _ _ E). }
  pose proof (pay_dividends_dirty pt d) as Hp.
  destruct (PositionTracker.pay_dividends pt d) as [paid pt'].
  intros H. injection H as <-. cbn [snd] in Hp.
  conjuncts; try reflexivity.
  cbn [Ledger.position_tracker Ledger.with_portfolio Ledger.with_position_tracker].
  congruence.
Qed.

Lemma account_read_fields (l l' : Ledger.t) (d : list (string * num)) :
  Ledger.account l = Ok (d, l') ->
  well_flagged l -> well_flagged l' /\ basis l' == basis l.
Proof.
  unfold Ledger.account.
  destruct (Ledger.dirty_account l) eqn:Ea.
  - destruct (Ledger.portfolio l) as [[p l1]|e] eqn:Er;
      cbv beta iota delta [bind]; [|discriminate].
    destruct (py_div _ _) as [cushion|e]; cbv beta iota delta [bind];
      [|discriminate].
    unfold Ledger.calculate_period_stats.
    destruct (PositionTracker.stats (Ledger.position_tracker l1)) as [s pt] eqn:Es.
    destruct s as [s|]; cbv beta iota delta [bind]; [|discriminate].
    match goal with
    | |- Ok (?fields, _) = _ -> _ => set (account_dict := fields)
    end.
    clearbody account_dict.
    intros H. injection H as _ <-. intros [_ Hstats].
    destruct (portfolio_read_fields _ _ _ Er) as (Hclean & _ & Hb & _).
    destruct (portfolio_read_state _ _ _ Er) as [_ Hs1].
    split; [split|].
    + cbn [Ledger.dirty_portfolio Ledger.with_account Ledger.with_position_tracker].
      rewrite Hclean. discriminate.
    + cbn [Ledger.position_tracker Ledger.with_account Ledger.with_position_tracker].
      rewrite (stats_keeps_dirty _ _ _ Es). congruence.
    + exact Hb.
  - intros H. injection H as _ <-. intros Hw. split; [exact Hw|reflexivity].
Qed.

Lemma run_event_keeps
  (adjust : Position -> Asset -> Q -> Position)
  (handle_split : Position -> Asset -> Q -> Position * Q)
  (l l' : Ledger.t) (e : event) :
  run_event adjust handle_split l e = Ok l' ->
  well_flagged l ->
  well_flagged l' /\ basis l' == basis l + capital_of e.
Proof.
  intros Hrun [Hc Hs]. unfold well_flagged.
  destruct e as [m|asset cost|splits|asset dt dp|c| |];
    cbn [run_event capital_of] in *.
  - destruct m as [txn|order|d reader|dt dp h|kwargs]; cbn [mutate] in Hrun.
    + destruct (process_transaction_fields _ _ _ Hrun) as (Hp & Ha & Ht & Hb).
      rewrite Hb, Ht, execute_transaction_dirty.
      split; [split; [intros _; exact Ha|reflexivity]|ring].
    + destruct (process_order_fields _ _ _ Hrun) as (Hp & Ha & Ht & Hb).
      rewrite Hb, Ht, Hp, Ha.
      split; [split; assumption|ring].
    + destruct (process_dividends_fields _ _ _ _ Hrun) as (Hp & Ha & Ht & Hb).
      rewrite Hb, Ht.
      split; [split; [intros _; exact Ha|exact Hs]|ring].
    + injection Hrun as <-.
      split; [split; [exact Hc|reflexivity]|basis_ring].
    + injection Hrun as <-.
      split; [split; [reflexivity|exact Hs]|basis_ring].
  - injection Hrun as <-.
    split; [split; [reflexivity|apply handle_commission_dirty; exact Hs]
           |basis_ring].
  - injection Hrun as <-. unfold Ledger.process_splits.
    pose proof (handle_splits_dirty handle_split splits
                  (Ledger.position_tracker l) 0 Hs) as Hd.
    unfold PositionTracker.handle_splits.
    destruct (fold_left _ splits _) as [leftover pt]. cbn [snd] in Hd.
    destruct (Qlt_bool 0 leftover);
      (split; [split; [try exact Hc; reflexivity|exact Hd]|basis_ring]).
  - unfold Ledger.close_position in Hrun.
    destruct (PositionTracker.maybe_create_close_position_transaction _ _ _ _)
      as [txn|].
    + destruct (process_transaction_fields _ _ _ Hrun) as (Hp & Ha & Ht & Hb).
      rewrite Hb, Ht, execute_transaction_dirty.
      split; [split; [intros _; exact Ha|reflexivity]|ring].
    + injection Hrun as <-. split; [split; assumption|ring].
  - injection Hrun as <-.
    split; [split; assumption|basis_ring].
  - destruct (Ledger.portfolio l) as [[p l1]|e] eqn:Er;
      cbv beta iota delta [bind] in Hrun; [|discriminate].
    injection Hrun as <-.
    destruct (portfolio_read_fields _ _ _ Er) as (Hclean & _ & Hb & _).
    destruct (portfolio_read_state _ _ _ Er) as [_ Hs1].
    rewrite Hclean, Hs1, Hb.
    split; [split; [discriminate|exact Hs]|ring].
  - destruct (Ledger.account l) as [[d l1]|e] eqn:Er;
      cbv beta iota delta [bind] in Hrun; [|discriminate].
    injection Hrun as <-.
    destruct (account_read_fields _ _ _ Er (conj Hc Hs)) as [Hw Hb].
    split; [exact Hw|]. rewrite Hb. ring.
Qed.

Lemma capital_changes_cons (e : event) (rest : list event) :
  capital_changes (e :: rest) == capital_of e + capital_changes rest.
Proof. destruct e; simpl; ring. Qed.

Lemma run_events_keeps
  (adjust : Position -> Asset -> Q -> Position)
  (handle_split : Position -> Asset -> Q -> Position * Q)
  (events : list event) :
  forall l l',
    run_events adjust handle_split l events = Ok l' ->
    well_flagged l ->
    well_flagged l' /\ basis l' == basis l + capital_changes events.
Proof.
  induction events as [|e rest IH]; intros l l' Hrun Hw.
  - injection Hrun as <-. split; [exact Hw|]. simpl. ring.
  - cbn [run_events] in Hrun.
    destruct (run_event adjust handle_split l e) as [l1|err] eqn:E;
      cbv beta iota delta [bind] in Hrun; [|discriminate].
    destruct (run_event_keeps _ _ _ _ _ E Hw) as [Hw1 Hb1].
    destruct (IH _ _ Hrun Hw1) as [Hw' Hb'].
    split; [exact Hw'|].
    rewrite Hb', Hb1, capital_changes_cons. ring.
Qed.

Lemma init_well_flagged (first_session : Z) (capital_base : Q) (freq : DataFrequency) :
  well_flagged (Ledger.init first_session capital_base freq).
Proof. split; [discriminate|reflexivity]. Qed.

(** Whatever events a fresh ledger goes through, reads included, a dirty
    portfolio always comes with a dirty account, so the account is never
    served from a cache older than the portfolio; and the tracker's
    statistics are never served from the cache at all: [stats] returns the
    statistics of the current book. *)
Theorem flags_after_any_run
  (adjust : Position -> Asset -> Q -> Position)
  (handle_split : Position -> Asset -> Q -> Position * Q)
  (first_session : Z) (capital_base : Q) (freq : DataFrequency)
  (events : list event) (l : Ledger.t) :
  run_events adjust handle_split (Ledger.init first_session capital_base freq) events
  = Ok l ->
  (Ledger.dirty_portfolio l = true -> Ledger.dirty_account l = true)
  /\ fst (PositionTracker.stats (Ledger.position_tracker l))
     = Some (PositionTracker.compute_stats
               (PositionTracker.positions (Ledger.position_tracker l))).
Proof.
  intros H.
  destruct (run_events_keeps _ _ _ _ _ H (init_well_flagged _ _ _)) as [[Hc Hs] _].
  split; [exact Hc|]. rewrite (stats_dirty _ Hs). reflexivity.
Qed.

Lemma flags_after_any_run_witness :
  (Ledger.dirty_portfolio after_busy_day = true ->
   Ledger.dirty_account after_busy_day = true)
  /\ fst (PositionTracker.stats (Ledger.position_tracker after_busy_day))
     = Some (PositionTracker.compute_stats
               (PositionTracker.positions (Ledger.position_tracker after_busy_day))).
Proof.
  apply (flags_after_any_run no_adjustment unit_leftover 0 (1000 # 1) daily busy_day).
  vm_compute. reflexivity.
Defined.

(** Whatever events a fresh ledger goes through, the portfolio value of its
    snapshot is the starting capital, plus the capital changes, plus the
    profit and loss: reads move value and pnl together, capital changes
    move value alone, and nothing else moves either. *)
Theorem value_is_capital_plus_pnl
  (adjust : Position -> Asset -> Q -> Position)
  (handle_split : Position -> Asset -> Q -> Position * Q)
  (first_session : Z) (capital_base : Q) (freq : DataFrequency)
  (events : list event) (l : Ledger.t) :
  run_events adjust handle_split (Ledger.init first_session capital_base freq) events
  = Ok l ->
  portfolio_value (Ledger.portfolio_ l)
  == capital_base + capital_changes events + pnl (Ledger.portfolio_ l).
Proof.
  intros H.
  destruct (run_events_keeps _ _ _ _ _ H (init_well_flagged _ _ _)) as [_ Hb].
  unfold basis in Hb. cbn [Ledger.init Ledger.portfolio_ Portfolio_new
    portfolio_value pnl] in Hb.
  assert (E : portfolio_value (Ledger.portfolio_ l)
              == portfolio_value (Ledger.portfolio_ l) - pnl (Ledger.portfolio_ l)
                 + pnl (Ledger.portfolio_ l)) by ring.
  rewrite E, Hb. ring.
Qed.

Lemma value_is_capital_plus_pnl_witness :
  portfolio_value (Ledger.portfolio_ after_busy_day)
  == (1000 # 1) + capital_changes busy_day + pnl (Ledger.portfolio_ after_busy_day).
Proof.
  apply (value_is_capital_plus_pnl no_adjustment unit_leftover 0 (1000 # 1) daily
           busy_day).
  vm_compute. reflexivity.
Defined.

Example busy_day_values :
  portfolio_value (Ledger.portfolio_ after_busy_day) == 1007 # 1
  /\ pnl (Ledger.portfolio_ after_busy_day) == - (43 # 1)
  /\ held (Ledger.position_tracker after_busy_day) (Equity 1) = false.
Proof. conjuncts; vm_compute; reflexivity. Qed.

(** ** Account overrides *)

Lemma dict_update_other (kwargs : list (string * num)) (k : string) :
  forall d,
    ~ In k (PyDict.keys kwargs) ->
    PyDict.get String.eqb (Ledger.dict_update d kwargs) k = PyDict.get String.eqb d k.
Proof.
  unfold Ledger.dict_update.
  induction kwargs as [|[k' v'] rest IH]; intros d Hnot; [reflexivity|].
  simpl. rewrite IH by (intros Hin; apply Hnot; right; exact Hin).
  apply (get_set_other String.eqb k' k).
  - intros x Hx. apply String.eqb_eq in Hx. subst x.
    apply String.eqb_neq. intros ->. apply Hnot. left. reflexivity.
  - apply String.eqb_neq. intros ->. apply Hnot. left. reflexivity.
Qed.

Lemma dict_update_get (kwargs : list (string * num)) (k : string) (v : num) :
  forall d,
    NoDup (PyDict.keys kwargs) -> In (k, v) kwargs ->
    PyDict.get String.eqb (Ledger.dict_update d kwargs) k = Some v.
Proof.
  induction kwargs as [|[k' v'] rest IH]; intros d Hnd Hin; [destruct Hin|].
  inversion Hnd as [|? ? Hk Hrest]; subst.
  destruct Hin as [Heq|Hin].
  - injection Heq as -> ->.
    change (Ledger.dict_update d ((k, v) :: rest))
      with (Ledger.dict_update (PyDict.set String.eqb d k v) rest).
    rewrite (dict_update_other rest k _ Hk).
    apply (get_set String.eqb _ _ (string_same_key _) (String.eqb_refl _)).
  - change (Ledger.dict_update d ((k', v') :: rest))
      with (Ledger.dict_update (PyDict.set String.eqb d k' v') rest).
    apply IH; assumption.
Qed.

(** Overrides win and stay: when the account is next read after
    [override_account_fields], every field the caller supplied has the
    value supplied, whatever the default formula gives, and the overrides
    are still in force in the ledger the read leaves. *)
Theorem account_overrides_win
  (l l' : Ledger.t) (kwargs d : list (string * num)) (k : string) (v : num) :
  NoDup (PyDict.keys kwargs) ->
  In (k, v) kwargs ->
  Ledger.account (Ledger.override_account_fields l kwargs) = Ok (d, l') ->
  PyDict.get String.eqb d k = Some v
  /\ Ledger.account_overrides l' = kwargs
  /\ Ledger.dirty_account l' = false.
Proof.
  intros Hnd Hin. unfold Ledger.account.
  cbn [Ledger.dirty_account Ledger.override_account_fields Ledger.with_account].
  destruct (Ledger.portfolio _) as [[p l1]|e] eqn:Er;
    cbv beta iota delta [bind]; [|discriminate].
  destruct (portfolio_read_fields _ _ _ Er) as (_ & _ & _ & _ & _ & _ & _ & Ho).
  cbn [Ledger.account_overrides Ledger.with_account] in Ho.
  destruct (py_div _ _) as [cushion|e]; cbv beta iota delta [bind]; [|discriminate].
  unfold Ledger.calculate_period_stats.
  destruct (PositionTracker.stats (Ledger.position_tracker l1)) as [s pt].
  destruct s as [s|]; cbv beta iota delta [bind]; [|discriminate].
  cbn [Ledger.account_overrides Ledger.with_position_tracker].
  rewrite Ho.
  match goal with
  | |- Ok (Ledger.dict_update ?fields _, _) = _ -> _ => set (defaults := fields)
  end.
  clearbody defaults.
  intros H. injection H as <- <-.
  split; [apply dict_update_get; assumption|]. split; reflexivity.
Qed.

Lemma account_overrides_win_witness :
  PyDict.get String.eqb (fst (match overridden_read with
                              | Ok r => r
                              | Raise _ => ([], two_step_mutated1)
                              end)) "buying_power"%string
  = Some (Fin (250 # 1)).
Proof.
  apply (account_overrides_win two_step_mutated1
           (snd (match overridden_read with
                 | Ok r => r
                 | Raise _ => ([], two_step_mutated1)
                 end))
           broker_fields _ "buying_power"%string (Fin (250 # 1))).
  - vm_compute. repeat constructor; simpl; intuition discriminate.
  - left. reflexivity.
  - vm_compute. reflexivity.
Defined.

(** ** Dividends on an empty book *)

(** With nothing held [process_dividends] earns nothing, never consults the
    schedule and never fails, but it still pays: cash flow grows by what was
    owed for the session, and the portfolio is marked dirty. *)
Theorem process_dividends_empty_book
  (l : Ledger.t) (next_session : Z) (reader : AdjustmentReader) :
  PositionTracker.positions (Ledger.position_tracker l) = [] ->
  exists l',
    Ledger.process_dividends l next_session reader = Ok l'
    /\ cash_flow (Ledger.portfolio_ l')
       = cash_flow (Ledger.portfolio_ l)
         + owed_on (Ledger.position_tracker l) next_session
    /\ Ledger.dirty_portfolio l' = true
    /\ Ledger.position_tracker l'
       = snd (PositionTracker.pay_dividends (Ledger.position_tracker l) next_session).
Proof.
  intros H. unfold Ledger.process_dividends. rewrite H.
  cbn [PyDict.keys map]. cbv beta iota delta [bind].
  rewrite <- pay_dividends_cash.
  destruct (PositionTracker.pay_dividends (Ledger.position_tracker l) next_session)
    as [paid pt].
  eexists. split; [reflexivity|]. conjuncts; reflexivity.
Qed.

Lemma process_dividends_empty_book_witness :
  exists l',
    Ledger.process_dividends futures_start 5
      (mkAdjustmentReader (fun _ _ => []) (fun _ _ => [])) = Ok l'
    /\ cash_flow (Ledger.portfolio_ l')
       = cash_flow (Ledger.portfolio_ futures_start)
         + owed_on (Ledger.position_tracker futures_start) 5
    /\ Ledger.dirty_portfolio l' = true
    /\ Ledger.position_tracker l'
       = snd (PositionTracker.pay_dividends (Ledger.position_tracker futures_start) 5).
Proof.
  apply (process_dividends_empty_book futures_start 5). reflexivity.
Defined.

(** ** The user-facing store *)

Section DictCommute.
Context {K V : Type}.
Variable eqb : K -> K -> bool.
Variables k a : K.
Hypothesis other_key : forall x, eqb x k = true -> eqb x a = false.
Hypothesis other_key_new : eqb k a = false.

Lemma remove_set_other (d : list (K * V)) (v : V) :
  PyDict.remove eqb (PyDict.set eqb d k v) a
  = PyDict.set eqb (PyDict.remove eqb d a) k v.
Proof.
  induction d as [|[x w] r IH]; simpl.
  - rewrite other_key_new. reflexivity.
  - destruct (eqb x k) eqn:Ek; simpl.
    + rewrite (other_key _ Ek). simpl. rewrite Ek. reflexivity.
    + destruct (eqb x a); simpl; [reflexivity|].
      rewrite Ek, IH. reflexivity.
Qed.

Lemma remove_remove_other (d : list (K * V)) :
  PyDict.remove eqb (PyDict.remove eqb d k) a
  = PyDict.remove eqb (PyDict.remove eqb d a) k.
Proof.
  induction d as [|[x w] r IH]; simpl; [reflexivity|].
  destruct (eqb x k) eqn:Ek; simpl.
  - rewrite (other_key _ Ek). simpl. rewrite Ek. reflexivity.
  - destruct (eqb x a); simpl; [reflexivity|].
    rewrite Ek, IH. reflexivity.
Qed.

End DictCommute.

Lemma store_step_other (store : list (Asset * Position)) (k a : Asset) (p : Position) :
  asset_sid k <> asset_sid a ->
  PyDict.get asset_eqb (PositionTracker.store_step store (k, p)) a
  = PyDict.get asset_eqb store a
  /\ (keyed_once asset_eqb store a ->
      keyed_once asset_eqb (PositionTracker.store_step store (k, p)) a).
Proof.
  intros H. destruct (asset_other_key _ _ H) as [Ho Hn].
  unfold PositionTracker.store_step, keyed_once, PyDict.delitem.
  destruct (pos_amount p =? 0)%Z.
  - destruct (PyDict.contains asset_eqb store k).
    + split; [apply (get_remove_other asset_eqb _ _ Ho)|].
      intros Hk. rewrite (remove_remove_other asset_eqb _ _ Ho).
      rewrite (get_remove_other asset_eqb _ _ Ho). exact Hk.
    + split; [reflexivity|tauto].
  - split; [apply (get_set_other asset_eqb _ _ Ho Hn)|].
    intros Hk. rewrite (remove_set_other asset_eqb _ _ Ho Hn).
    rewrite (get_set_other asset_eqb _ _ Ho Hn). exact Hk.
Qed.

Lemma fold_store_absent (a : Asset) (ps : list (Asset * Position)) :
  forall store,
    PyDict.get asset_eqb ps a = None ->
    PyDict.get asset_eqb (fold_left PositionTracker.store_step ps store) a
    = PyDict.get asset_eqb store a.
Proof.
  induction ps as [|[k p] rest IH]; intros store H; [reflexivity|].
  simpl in H |- *. destruct (asset_eqb k a) eqn:E; [discriminate|].
  rewrite (IH _ H). apply store_step_other. apply Z.eqb_neq. exact E.
Qed.

Lemma fold_store_lookup (a : Asset) (ps : list (Asset * Position)) :
  forall store,
    keyed_once asset_eqb ps a ->
    keyed_once asset_eqb store a ->
    option_map position_view
      (PyDict.get asset_eqb (fold_left PositionTracker.store_step ps store) a)
    = match PyDict.get asset_eqb ps a with
      | Some p =>
          if (pos_amount p =? 0)%Z then None else Some (position_view p)
      | None => option_map position_view (PyDict.get asset_eqb store a)
      end.
Proof.
  induction ps as [|[k p] rest IH]; intros store Hps Hstore; [reflexivity|].
  unfold keyed_once in Hps.
  cbn [PyDict.remove PyDict.get fold_left] in Hps |- *.
  destruct (asset_eqb k a) eqn:E.
  - rewrite (fold_store_absent a rest _ Hps).
    assert (Hsid : asset_sid k = asset_sid a) by (apply Z.eqb_eq; exact E).
    unfold PositionTracker.store_step, PyDict.delitem, PyDict.contains.
    destruct (pos_amount p =? 0)%Z.
    + rewrite (get_same_key asset_eqb _ _ (asset_same_key _ _ Hsid) store).
      destruct (PyDict.get asset_eqb store a) eqn:Eg; [|rewrite Eg; reflexivity].
      rewrite (remove_same_key asset_eqb _ _ (asset_same_key _ _ Hsid)).
      unfold keyed_once in Hstore. rewrite Hstore. reflexivity.
    + rewrite (get_set asset_eqb _ _ (asset_same_key _ _ Hsid) E). reflexivity.
  - cbn [PyDict.get] in Hps. rewrite E in Hps.
    assert (Hsid : asset_sid k <> asset_sid a) by (apply Z.eqb_neq; exact E).
    destruct (store_step_other store k a p Hsid) as [Hget Hkeyed].
    rewrite (IH _ Hps (Hkeyed Hstore)), Hget. reflexivity.
Qed.

(** After [get_positions] the store shows, for an instrument, exactly what
    the book holds: the amount, cost basis and last sale of its position
    when that is not empty, nothing when the position is empty (a stale
    entry is deleted), and what it showed before when the book has no
    position in it. *)
Theorem get_positions_mirrors_book (pt : PositionTracker.t) (a : Asset) :
  keyed_once asset_eqb (PositionTracker.positions pt) a ->
  keyed_once asset_eqb (PositionTracker.positions_store pt) a ->
  option_map position_view
    (PyDict.get asset_eqb (fst (PositionTracker.get_positions pt)) a)
  = match PyDict.get asset_eqb (PositionTracker.positions pt) a with
    | Some p => if (pos_amount p =? 0)%Z then None else Some (position_view p)
    | None =>
        option_map position_view
          (PyDict.get asset_eqb (PositionTracker.positions_store pt) a)
    end.
Proof.
  intros Hps Hstore. unfold PositionTracker.get_positions. cbn [fst].
  apply fold_store_lookup; assumption.
Qed.

Lemma get_positions_mirrors_book_witness :
  option_map position_view
    (PyDict.get asset_eqb (fst (PositionTracker.get_positions emptied_book)) (Equity 1))
  = None
  /\ option_map position_view
       (PyDict.get asset_eqb (PositionTracker.positions_store emptied_book) (Equity 1))
     = Some (10%Z, pos_cost_basis
                     (PositionTracker.position_or_new
                        (PositionTracker.positions two_longs) (Equity 1)),
             10 # 1, None).
Proof.
  split.
  - apply (get_positions_mirrors_book emptied_book (Equity 1)); reflexivity.
  - vm_compute. reflexivity.
Defined.
